(** * A shallow embedding of the [Mixin] composition framework

    The development follows [abstract_mixin.ts] (the abstract class [Mixin]
    with [mixinInits], [mixinDestroys], [notApplicable], [hasMixin] and
    [applyMixin]) and [example.ts] (the units [MixinNumber], [MixinString]
    and the host class [Combinator]).

    Modelling choices.
    - A class is identified by a [class_id]; the program supplies, for each
      class, its [name], the method names of its prototype (in declaration
      order) and the bodies of those methods.  A class prototype is what
      [class] syntax produces: a [constructor] data property followed by the
      methods, all writable, not enumerable and configurable.
    - A host is an ordinary extensible object: its class chain, its own
      properties (name to descriptor) and the two fields the class [Mixin]
      declares, [mixinsApplied] (a [Map], kept in insertion order) and
      [mixinsDestroyed] (a number).  An absent field and a field holding
      [undefined] are both [None].  Accessor properties and the members of
      [Object.prototype] are not part of the model.
    - Numbers are the integer-valued ones plus [NaN].
    - Method bodies are arbitrary state transformers that may throw.  The calls
      the framework itself performs are recorded in a trace next to the state,
      which bodies cannot touch. *)

From Stdlib Require Import ZArith Bool Lia.
From stdpp Require Import gmap strings list pretty.

Open Scope string_scope.
Open Scope list_scope.

(** ** Values, descriptors and objects *)

Definition class_id := nat.

Inductive number :=
| Num (z : Z)
| NaN.

Inductive value :=
| VUndefined
| VBool (b : bool)
| VNumber (n : number)
| VString (s : string)
| VClass (c : class_id)
| VFun (c : class_id) (m : string).

#[global] Instance number_eq_dec : EqDecision number.
Proof. solve_decision. Defined.

#[global] Instance value_eq_dec : EqDecision value.
Proof. solve_decision. Defined.

(** A data property descriptor, [{ value, writable, enumerable, configurable }]. *)
Record descriptor := Descriptor {
  dvalue : value;
  writable : bool;
  enumerable : bool;
  configurable : bool
}.

(** The value type of the [mixinsApplied] map:
    [{ classApplyingMixin: any, destroyMethod: () => void }].  [destroyMethod]
    is the function that was bound to the host. *)
Record applied := Applied {
  classApplyingMixin : class_id;
  destroyMethod : value
}.

Record object := Object {
  hclass : class_id;
  ancestors : list class_id;
  own : gmap string descriptor;
  mixinsApplied : option (list (class_id * applied));
  mixinsDestroyed : option number
}.

Inductive output :=
| ConsoleLog (s : string)
| ConsoleError (s : string).

(** The state a method body can see and change: the host ([this]), the
    console, and the classes whose static [multiMixin] currently reads true. *)
Record world := World {
  host : object;
  console : list output;
  multiMixin : list class_id
}.

Definition with_own (o : object) (p : gmap string descriptor) : object :=
  Object (hclass o) (ancestors o) p (mixinsApplied o) (mixinsDestroyed o).

Definition with_mixinsApplied (o : object) (m : option (list (class_id * applied))) : object :=
  Object (hclass o) (ancestors o) (own o) m (mixinsDestroyed o).

Definition with_mixinsDestroyed (o : object) (n : option number) : object :=
  Object (hclass o) (ancestors o) (own o) (mixinsApplied o) n.

Definition with_host (w : world) (o : object) : world :=
  World o (console w) (multiMixin w).

Definition with_console (w : world) (c : list output) : world :=
  World (host w) c (multiMixin w).

(** ** Results and the state-and-exception monad *)

(** [Unmodelled] marks behaviour that lies outside the model; no statement
    below is about a run that ends in it. *)
Inductive exn :=
| TypeError (msg : string)
| RangeError (msg : string)
| Unmodelled (what : string).

Inductive result (A : Type) :=
| Ok (a : A)
| Throw (e : exn).

Arguments Ok {A} a.
Arguments Throw {A} e.

Definition M (S A : Type) : Type := S -> result (A * S).

Definition ret {S A} (a : A) : M S A := fun s => Ok (a, s).

Definition throw {S A} (e : exn) : M S A := fun _ => Throw e.

Definition bind {S A B} (m : M S A) (k : A -> M S B) : M S B :=
  fun s => match m s with
           | Ok (a, s') => k a s'
           | Throw e => Throw e
           end.

Declare Scope js_scope.
Delimit Scope js_scope with js.
Notation "x <- m ;; k" := (bind m (fun x => k))
  (at level 90, m at level 80, right associativity) : js_scope.
Notation "m ;;; k" := (bind m (fun _ => k))
  (at level 90, right associativity) : js_scope.

Definition gets {S A} (f : S -> A) : M S A := fun s => Ok (f s, s).

Definition modify {S} (f : S -> S) : M S unit := fun s => Ok (tt, f s).

Definition when {S} (b : bool) (m : M S unit) : M S unit :=
  if b then m else ret tt.

(** [Array.prototype.forEach] with a callback that may throw. *)
Fixpoint forEach {S A} (l : list A) (f : A -> M S unit) : M S unit :=
  match l with
  | [] => ret tt
  | x :: rest => bind (f x) (fun _ => forEach rest f)
  end.

(** Run a computation on the host inside a world. *)
Definition onHost {A} (m : M object A) : M world A :=
  fun w => match m (host w) with
           | Ok (a, o) => Ok (a, with_host w o)
           | Throw e => Throw e
           end.

(** ** The [Map] operations used on [mixinsApplied] *)

Definition map_has {V} (m : list (class_id * V)) (k : class_id) : bool :=
  existsb (fun kv => Nat.eqb (fst kv) k) m.

(** [Map.prototype.set]: an existing key keeps its position. *)
Fixpoint map_set {V} (m : list (class_id * V)) (k : class_id) (v : V) : list (class_id * V) :=
  match m with
  | [] => [(k, v)]
  | (k', v') :: rest =>
      if Nat.eqb k' k then (k', v) :: rest else (k', v') :: map_set rest k v
  end.

Definition classApplyingMixin_of (entry : class_id * applied) : class_id :=
  classApplyingMixin (snd entry).

Definition map_size {V} (m : list (class_id * V)) : nat := length m.

(** ** Property access on ordinary objects *)

(** [Object.defineProperty(o, name, d)] with a complete data descriptor [d]
    (ValidateAndApplyPropertyDescriptor on an extensible object). *)
Definition defineProperty (name : string) (d : descriptor) : M object unit :=
  fun o =>
    let define := Ok (tt, with_own o (<[name := d]> (own o))) in
    match own o !! name with
    | None => define
    | Some current =>
        if configurable current then define
        else if configurable d then Throw (TypeError ("Cannot redefine property: " +:+ name))
        else if negb (eqb (enumerable d) (enumerable current)) then
          Throw (TypeError ("Cannot redefine property: " +:+ name))
        else if writable current then define
        else if writable d then Throw (TypeError ("Cannot redefine property: " +:+ name))
        else if decide (dvalue d = dvalue current) then define
        else Throw (TypeError ("Cannot redefine property: " +:+ name))
    end.

(** [o.name = v] in strict code.  Inherited properties are class prototype
    members, which are writable, so an absent own property is created. *)
Definition setProperty (name : string) (v : value) : M object unit :=
  fun o =>
    match own o !! name with
    | Some current =>
        if writable current then
          Ok (tt, with_own o (<[name := Descriptor v true (enumerable current) (configurable current)]> (own o)))
        else Throw (TypeError ("Cannot assign to read only property " +:+ name))
    | None => Ok (tt, with_own o (<[name := Descriptor v true true true]> (own o)))
    end.

(** [delete o.name] in strict code. *)
Definition deleteProperty (name : string) : M object unit :=
  fun o =>
    match own o !! name with
    | Some current =>
        if configurable current then Ok (tt, with_own o (delete name (own o)))
        else Throw (TypeError ("Cannot delete property " +:+ name))
    | None => Ok (tt, o)
    end.

Definition Mixin : class_id := 0.

(** What [mixinInits] accepts for a unit: the class itself, or an object
    [{ mixin, conf }].  The code also reads a [multiMixin] property of that
    object, which the declared type does not name. *)
Inductive mixinArg (Conf : Type) :=
| Bare (c : class_id)
| Configured (mixin : class_id) (conf : option Conf) (multiMixinProp : bool).

Arguments Bare {Conf} c.
Arguments Configured {Conf} mixin conf multiMixinProp.

(** The calls made by the framework itself. *)
Inductive event (Conf : Type) :=
| Init (mixin : class_id) (f : value) (conf : option Conf)
| Destroy (mixin : class_id) (f : value).

Arguments Init {Conf} mixin f conf.
Arguments Destroy {Conf} mixin f.

(** A program: the classes and the bodies of their methods. *)
Record program (Conf : Type) := Program {
  cname : class_id -> string;
  methods : class_id -> list string;
  body : class_id -> string -> option Conf -> M world value
}.

Arguments cname {Conf} p c.
Arguments methods {Conf} p c.
Arguments body {Conf} p c m conf.

Section Framework.

Variable Conf : Type.
Variable P : program Conf.

(** [c.name]. *)
Definition name (c : class_id) : string :=
  if decide (c = Mixin) then "Mixin" else cname P c.

Definition methodNames (c : class_id) : list string :=
  if decide (c = Mixin) then ["mixinDestroys"] else methods P c.

(** [Object.getOwnPropertyNames(c.prototype)]. *)
Definition getOwnPropertyNames (c : class_id) : list string :=
  "constructor" :: methodNames c.

(** [Object.getOwnPropertyDescriptor(c.prototype, name)]. *)
Definition getOwnPropertyDescriptor (c : class_id) (n : string) : option descriptor :=
  if decide (n = "constructor") then Some (Descriptor (VClass c) true false true)
  else if decide (n ∈ methodNames c) then Some (Descriptor (VFun c n) true false true)
  else None.

Fixpoint inherited (chain : list class_id) (n : string) : value :=
  match chain with
  | [] => VUndefined
  | c :: rest =>
      match getOwnPropertyDescriptor c n with
      | Some d => dvalue d
      | None => inherited rest n
      end
  end.

(** [o[n]]: own property first, then the prototype chain. *)
Definition get (o : object) (n : string) : value :=
  match own o !! n with
  | Some d => dvalue d
  | None => inherited (hclass o :: ancestors o) n
  end.

(** [o instanceof c]. *)
Definition instanceOf (o : object) (c : class_id) : bool :=
  existsb (Nat.eqb c) (hclass o :: ancestors o).

(** [f.call(this, arg)] for a function value [f]. *)
Definition call (f : value) (arg : option Conf) : M world value :=
  match f with
  | VFun c m => body P c m arg
  | VClass _ => throw (TypeError "Class constructor cannot be invoked without 'new'")
  | _ => throw (TypeError "is not a function")
  end.

(** [v.name] as it appears in a string concatenation. *)
Definition nameOfValue (v : value) : result string :=
  match v with
  | VUndefined => Throw (TypeError "Cannot read properties of undefined (reading 'name')")
  | VClass c => Ok (name c)
  | VFun _ m => Ok m
  | _ => Ok "undefined"
  end.

(** ** The static methods of [Mixin] *)

Definition hasMixin (instanceWithMixins : object) (mixinClass : class_id) : bool :=
  match mixinsApplied instanceWithMixins with
  | None => false
  | Some m => map_has m mixinClass
  end.

(** [Object.defineProperty(instance, n, Object.getOwnPropertyDescriptor(mixinClass.prototype, n))]. *)
Definition copyOne (mixinClass : class_id) (n : string) : M object unit :=
  match getOwnPropertyDescriptor mixinClass n with
  | Some d => defineProperty n d
  | None => throw (TypeError "Property description must be an object: undefined")
  end.

(** The [forEach] of [applyMixin]: copy every own descriptor of the prototype. *)
Definition copyMembers (mixinClass : class_id) : M object unit :=
  forEach (getOwnPropertyNames mixinClass) (copyOne mixinClass).

Definition applyMixin (mixinClass : class_id) : M object unit :=
  (constructorSave <- gets (fun o => get o "constructor") ;;
   copyMembers mixinClass ;;;
   setProperty "constructor" constructorSave)%js.

(** A host on which the members of [c] can be defined: none of its own
    properties with the name of a member is non-configurable. *)
Definition installable (c : class_id) (o : object) : Prop :=
  forall n cur, n ∈ getOwnPropertyNames c -> own o !! n = Some cur -> configurable cur = true.

Definition notApplicableMessage (hostName mixinName requiredName : string) : string :=
  hostName +:+ " is not an instance of " +:+ requiredName +:+
  " and can not use mixin " +:+ mixinName +:+
  ". Correct this fault as it can lead to unpredictable behaviour.".

Definition notApplicable (mixinClass instanceRequiredClass : class_id) : M world bool :=
  fun w =>
    let instanceApplyingMixin := host w in
    if negb (instanceOf instanceApplyingMixin instanceRequiredClass)
       && negb (hasMixin instanceApplyingMixin instanceRequiredClass)
    then
      match nameOfValue (get instanceApplyingMixin "constructor") with
      | Ok hostName =>
          Ok (true, with_console w (console w ++
                [ConsoleError (notApplicableMessage hostName (name mixinClass) (name instanceRequiredClass))]))
      | Throw e => Throw e
      end
    else Ok (false, w).

(** ** The framework calls, with their trace *)

Definition traced : Type := world * list (event Conf).

Definition onWorld {A} (m : M world A) : M traced A :=
  fun s => match m (fst s) with
           | Ok (a, w) => Ok (a, (w, snd s))
           | Throw e => Throw e
           end.

Definition emit (e : event Conf) : M traced unit :=
  fun s => Ok (tt, (fst s, snd s ++ [e])).

(** [mixinClass.mixin ? mixinClass.mixin : mixinClass]. *)
Definition mixinOf (mixinClass : mixinArg Conf) : class_id :=
  match mixinClass with
  | Bare c => c
  | Configured mixin _ _ => mixin
  end.

(** [mixinClass.conf]. *)
Definition confOf (mixinClass : mixinArg Conf) : option Conf :=
  match mixinClass with
  | Bare _ => None
  | Configured _ conf _ => conf
  end.

(** [c.multiMixin] for a class [c]. *)
Definition staticMultiMixin (w : world) (c : class_id) : bool :=
  existsb (Nat.eqb c) (multiMixin w).

(** [mixinClass.multiMixin || mixinClass.mixin?.multiMixin]. *)
Definition multiMixinOf (w : world) (mixinClass : mixinArg Conf) : bool :=
  match mixinClass with
  | Bare c => staticMultiMixin w c
  | Configured mixin _ multiMixinProp => multiMixinProp || staticMultiMixin w mixin
  end.

(** [f.bind(instance)]: the function that the bound function will call. *)
Definition bindMethod (f : value) : result value :=
  match f with
  | VUndefined => Throw (TypeError "Cannot read properties of undefined (reading 'bind')")
  | VFun _ _ | VClass _ => Ok f
  | _ => Throw (TypeError "bind is not a function")
  end.

(** [instance.mixinsApplied.set(mixin, { classApplyingMixin, destroyMethod })]. *)
Definition recordApplied (classOfInstance mixin : class_id) : M object unit :=
  fun o =>
    match mixinsApplied o with
    | None => Throw (TypeError "Cannot read properties of undefined (reading 'set')")
    | Some m =>
        match bindMethod (get o (name mixin +:+ "Destroy")) with
        | Ok d => Ok (tt, with_mixinsApplied o (Some (map_set m mixin (Applied classOfInstance d))))
        | Throw e => Throw e
        end
    end.

(** The callback of the [forEach] in [mixinInits]. *)
Definition initOne (classOfInstance : class_id) (mixinClass : mixinArg Conf) : M traced unit :=
  let mixin := mixinOf mixinClass in
  (doesNotHaveMixin <- onWorld (gets (fun w => negb (hasMixin (host w) mixin))) ;;
   when doesNotHaveMixin (onWorld (onHost (applyMixin mixin))) ;;;
   multi <- onWorld (gets (fun w => multiMixinOf w mixinClass)) ;;
   when (multi || doesNotHaveMixin)
     (f <- onWorld (gets (fun w => get (host w) (name mixin))) ;;
      emit (Init mixin f (confOf mixinClass)) ;;;
      _ <- onWorld (call f (confOf mixinClass)) ;;
      ret tt) ;;;
   when doesNotHaveMixin (onWorld (onHost (recordApplied classOfInstance mixin))))%js.

Definition mixinInits (classOfInstance : class_id) (mixinClasses : list (mixinArg Conf))
  : M traced unit :=
  (fresh <- onWorld (gets (fun w => negb (bool_decide (is_Some (mixinsApplied (host w)))))) ;;
   when fresh
     (onWorld (onHost (applyMixin Mixin)) ;;;
      onWorld (onHost (modify (fun o => with_mixinsApplied o (Some []))))) ;;;
   forEach mixinClasses (initOne classOfInstance))%js.

(** [this.mixinsDestroyed++]. *)
Definition increment (n : option number) : number :=
  match n with
  | Some (Num z) => Num (z + 1)
  | _ => NaN
  end.

(** [size == this.mixinsDestroyed]. *)
Definition sizeEquals (size : nat) (n : option number) : bool :=
  match n with
  | Some (Num z) => Z.eqb (Z.of_nat size) z
  | _ => false
  end.

Definition ownedBy (classApplyingMixin : class_id) (entry : class_id * applied) : bool :=
  Nat.eqb (classApplyingMixin_of entry) classApplyingMixin.

(** The callback of the [forEach] in [mixinDestroys]. *)
Definition destroyOne (mixin : class_id * applied) : M traced unit :=
  (emit (Destroy (fst mixin) (destroyMethod (snd mixin))) ;;;
   _ <- onWorld (call (destroyMethod (snd mixin)) None) ;;
   onWorld (onHost (modify (fun o =>
     with_mixinsDestroyed o (Some (increment (mixinsDestroyed o)))))))%js.

Definition retire : M object unit :=
  fun o =>
    match mixinsApplied o with
    | None => Throw (TypeError "Cannot read properties of undefined (reading 'size')")
    | Some m =>
        if sizeEquals (map_size m) (mixinsDestroyed o)
        then Ok (tt, with_mixinsDestroyed (with_mixinsApplied o None) None)
        else Ok (tt, o)
    end.

Definition mixinDestroys (classApplyingMixin : class_id) : M traced unit :=
  (registry <- onWorld (gets (fun w => mixinsApplied (host w))) ;;
   match registry with
   | None => ret tt
   | Some m =>
       let tempArray := rev (List.filter (ownedBy classApplyingMixin) m) in
       (unset <- onWorld (gets (fun w => negb (bool_decide (is_Some (mixinsDestroyed (host w)))))) ;;
        when unset (onWorld (onHost (modify (fun o => with_mixinsDestroyed o (Some (Num 0)))))) ;;;
        forEach tempArray destroyOne ;;;
        onWorld (onHost retire))
   end)%js.

End Framework.

Arguments name {Conf} P c.
Arguments methodNames {Conf} P c.
Arguments getOwnPropertyNames {Conf} P c.
Arguments getOwnPropertyDescriptor {Conf} P c n.
Arguments inherited {Conf} P chain n.
Arguments get {Conf} P o n.
Arguments call {Conf} P f arg.
Arguments nameOfValue {Conf} P v.
Arguments copyOne {Conf} P mixinClass n.
Arguments copyMembers {Conf} P mixinClass.
Arguments installable {Conf} P c o.
Arguments applyMixin {Conf} P mixinClass.
Arguments notApplicable {Conf} P mixinClass instanceRequiredClass.
Arguments traced Conf : clear implicits.
Arguments onWorld {Conf A} m.
Arguments emit {Conf} e.
Arguments mixinOf {Conf} mixinClass.
Arguments confOf {Conf} mixinClass.
Arguments multiMixinOf {Conf} w mixinClass.
Arguments recordApplied {Conf} P classOfInstance mixin.
Arguments initOne {Conf} P classOfInstance mixinClass.
Arguments mixinInits {Conf} P classOfInstance mixinClasses.
Arguments destroyOne {Conf} P mixin.
Arguments mixinDestroys {Conf} P classApplyingMixin.

(** ** Vocabulary of the statements *)

Definition isInitOf {Conf} (U : class_id) (e : event Conf) : bool :=
  match e with
  | Init mixin _ _ => Nat.eqb mixin U
  | Destroy _ _ => false
  end.

(** How often the framework has called the initializer of [U]. *)
Definition initializations {Conf} (U : class_id) (t : list (event Conf)) : nat :=
  length (List.filter (isInitOf U) t).

(** A computation that leaves the registry of the host alone. *)
Definition keepsRegistry {A} (m : M world A) : Prop :=
  forall w a w', m w = Ok (a, w') -> mixinsApplied (host w') = mixinsApplied (host w).

(** A computation that leaves the teardown counter of the host alone. *)
Definition keepsCounter {A} (m : M world A) : Prop :=
  forall w a w', m w = Ok (a, w') -> mixinsDestroyed (host w') = mixinsDestroyed (host w).

(** A computation that leaves the own properties called [names] alone. *)
Definition keepsProperties {A} (names : list string) (m : M world A) : Prop :=
  forall w a w', m w = Ok (a, w') ->
    forall n, n ∈ names -> own (host w') !! n = own (host w) !! n.

Definition isKey {V} (U : class_id) (e : class_id * V) : bool := Nat.eqb (fst e) U.

(** The trace entry of one finalizer call. *)
Definition destroyEvent {Conf} (e : class_id * applied) : event Conf :=
  Destroy (fst e) (destroyMethod (snd e)).

(** The finalizer of a registry entry leaves the registry and the counter alone. *)
Definition quietFinalizer {Conf} (P : program Conf) (e : class_id * applied) : Prop :=
  keepsRegistry (call P (destroyMethod (snd e)) None) /\
  keepsCounter (call P (destroyMethod (snd e)) None).

(** A finalizer that always returns. *)
Definition totalFinalizer {Conf} (P : program Conf) (e : class_id * applied) : Prop :=
  forall w, exists v w', call P (destroyMethod (snd e)) None w = Ok (v, w').

(** The value of the teardown counter, an absent counter counting as zero. *)
Definition destroyedCount (o : object) : option Z :=
  match mixinsDestroyed o with
  | None => Some 0%Z
  | Some (Num k) => Some k
  | Some NaN => None
  end.

(** ** States reachable by framework calls *)

(** What is done with a host: the two framework calls, and calls
    [instance.n(arg)] of its methods. *)
Inductive frameworkCall (Conf : Type) :=
| CallMixinInits (classOfInstance : class_id) (mixinClasses : list (mixinArg Conf))
| CallMixinDestroys (classApplyingMixin : class_id)
| CallMethod (n : string) (arg : option Conf).

Arguments CallMixinInits {Conf} classOfInstance mixinClasses.
Arguments CallMixinDestroys {Conf} classApplyingMixin.
Arguments CallMethod {Conf} n arg.

Definition perform {Conf} (P : program Conf) (c : frameworkCall Conf) : M (traced Conf) unit :=
  match c with
  | CallMixinInits classOfInstance mixinClasses => mixinInits P classOfInstance mixinClasses
  | CallMixinDestroys classApplyingMixin => mixinDestroys P classApplyingMixin
  | CallMethod n arg =>
      onWorld (f <- gets (fun w => get P (host w) n) ;;
               _ <- call P f arg ;;
               ret tt)%js
  end.

(** The states a host goes through, from its allocation, under calls that
    complete. *)
Inductive reachable {Conf} (P : program Conf) : traced Conf -> Prop :=
| reachable_new (w : world) :
    mixinsApplied (host w) = None -> mixinsDestroyed (host w) = None ->
    reachable P (w, [])
| reachable_call (s s' : traced Conf) (c : frameworkCall Conf) :
    reachable P s -> perform P c s = Ok (tt, s') -> reachable P s'.

(** Every method body leaves the registry and the counter alone. *)
Definition quietProgram {Conf} (P : program Conf) : Prop :=
  forall c m conf, keepsRegistry (body P c m conf) /\ keepsCounter (body P c m conf).

Definition sameBookkeeping (w w' : world) : Prop :=
  mixinsApplied (host w') = mixinsApplied (host w) /\
  mixinsDestroyed (host w') = mixinsDestroyed (host w).

Definition sameProperties (names : list string) (w w' : world) : Prop :=
  forall n, n ∈ names -> own (host w') !! n = own (host w) !! n.

(** Computations whose final state is related to the initial one by [R]. *)
Definition respects (R : world -> world -> Prop) {A} (m : M world A) : Prop :=
  forall w a w', m w = Ok (a, w') -> R w w'.

(** ** The program of [example.ts] *)

Module Example.

(** [type MixinStringConf = { defaultValue?: string }]. *)
Record MixinStringConf := { defaultValue : option string }.

Definition MixinNumber : class_id := 1.
Definition MixinString : class_id := 2.
Definition BaseClass : class_id := 3.
Definition Combinator : class_id := 4.

Definition className (c : class_id) : string :=
  match c with
  | 1 => "MixinNumber"
  | 2 => "MixinString"
  | 3 => "BaseClass"
  | 4 => "Combinator"
  | _ => ""
  end.

Definition classMethods (c : class_id) : list string :=
  match c with
  | 1 => ["MixinNumber"; "MixinNumberDestroy"; "getNumber"]
  | 2 => ["MixinString"; "MixinStringDestroy"; "getString"; "joinWithNumber"]
  | 4 => ["destroy"]
  | _ => []
  end.

(** Truthiness, as used by [||]. *)
Definition truthy (v : value) : bool :=
  match v with
  | VUndefined => false
  | VBool b => b
  | VNumber (Num z) => negb (Z.eqb z 0)
  | VNumber NaN => false
  | VString s => negb (String.eqb s "")
  | VClass _ | VFun _ _ => true
  end.

Definition numberToString (n : number) : string :=
  match n with
  | Num z => pretty z
  | NaN => "NaN"
  end.

(** [ToNumber] on the values that [add] applies it to, which are no strings. *)
Definition toNumber (v : value) : number :=
  match v with
  | VNumber n => n
  | VBool true => Num 1
  | VBool false => Num 0
  | _ => NaN
  end.

(** [a + b] on primitive values; a function operand would contribute its
    source text, which the model does not carry. *)
Definition add (a b : value) : result value :=
  let str v :=
    match v with
    | VUndefined => "undefined"
    | VBool true => "true"
    | VBool false => "false"
    | VNumber n => numberToString n
    | VString s => s
    | _ => ""
    end in
  match a, b with
  | VClass _, _ | VFun _ _, _ | _, VClass _ | _, VFun _ _ =>
      Throw (Unmodelled "source text of a function")
  | VString _, _ | _, VString _ => Ok (VString (str a +:+ str b))
  | _, _ =>
      match toNumber a, toNumber b with
      | Num x, Num y => Ok (VNumber (Num (x + y)))
      | _, _ => Ok (VNumber NaN)
      end
  end.

Section Bodies.

(** The program that nested calls dispatch to. *)
Variable P : program MixinStringConf.

(** [this.n(arg)]. *)
Definition send (n : string) (arg : option MixinStringConf) : M world value :=
  (f <- gets (fun w => get P (host w) n) ;; call P f arg)%js.

(** [MixinNumber() { this.myNumber = 1; }] *)
Definition MixinNumber_init : M world value :=
  (onHost (setProperty "myNumber" (VNumber (Num 1))) ;;; ret VUndefined)%js.

(** [MixinNumberDestroy() { delete this.myNumber; }] *)
Definition MixinNumberDestroy : M world value :=
  (onHost (deleteProperty "myNumber") ;;; ret VUndefined)%js.

(** [getNumber() { return this.myNumber; }] *)
Definition getNumber : M world value :=
  gets (fun w => get P (host w) "myNumber").

(** [MixinString(conf) { if (Mixin.notApplicable(this, MixinString, MixinNumber)) return;
      this.myString = conf.defaultValue; }] *)
Definition MixinString_init (conf : option MixinStringConf) : M world value :=
  (failed <- notApplicable P MixinString MixinNumber ;;
   if failed then ret VUndefined
   else
     match conf with
     | None => throw (TypeError "Cannot read properties of undefined (reading 'defaultValue')")
     | Some c =>
         onHost (setProperty "myString"
                   match defaultValue c with
                   | Some s => VString s
                   | None => VUndefined
                   end) ;;;
         ret VUndefined
     end)%js.

(** [MixinStringDestroy() { delete this.myString; }] *)
Definition MixinStringDestroy : M world value :=
  (onHost (deleteProperty "myString") ;;; ret VUndefined)%js.

(** [getString() { return this.myString || "My value: "; }] *)
Definition getString : M world value :=
  (myString <- gets (fun w => get P (host w) "myString") ;;
   ret (if truthy myString then myString else VString "My value: "))%js.

(** [joinWithNumber() { this.myString = this.getString() + this.getNumber(); }] *)
Definition joinWithNumber : M world value :=
  (a <- send "getString" None ;;
   b <- send "getNumber" None ;;
   match add a b with
   | Ok v => onHost (setProperty "myString" v) ;;; ret VUndefined
   | Throw e => throw e
   end)%js.

End Bodies.

(** The methods of the two units, by class and name. *)
Definition methodTable (P : program MixinStringConf)
  : list (class_id * string * (option MixinStringConf -> M world value)) :=
  [ (MixinNumber, "MixinNumber", fun _ => MixinNumber_init);
    (MixinNumber, "MixinNumberDestroy", fun _ => MixinNumberDestroy);
    (MixinNumber, "getNumber", fun _ => getNumber P);
    (MixinString, "MixinString", MixinString_init P);
    (MixinString, "MixinStringDestroy", fun _ => MixinStringDestroy);
    (MixinString, "getString", fun _ => getString P);
    (MixinString, "joinWithNumber", fun _ => joinWithNumber P) ].

Fixpoint findMethod {B} (table : list (class_id * string * B)) (c : class_id) (m : string)
  : option B :=
  match table with
  | [] => None
  | (c', m', b) :: rest =>
      if Nat.eqb c' c && String.eqb m' m then Some b else findMethod rest c m
  end.

(** Method dispatch; [fuel] bounds the depth of nested calls. *)
Fixpoint methodBody (fuel : nat) (c : class_id) (m : string) (conf : option MixinStringConf)
  : M world value :=
  match fuel with
  | O => throw (RangeError "Maximum call stack size exceeded")
  | S fuel' =>
      match findMethod (methodTable (Program MixinStringConf className classMethods (methodBody fuel'))) c m with
      | Some b => b conf
      | None => throw (Unmodelled "no such method")
      end
  end.

Definition stackDepth : nat := 64.

Definition exampleProgram : program MixinStringConf :=
  Program MixinStringConf className classMethods (methodBody stackDepth).

(** [constructor() { console.log("BaseClass is here!"); }] of [BaseClass]. *)
Definition BaseClass_constructor : M world unit :=
  modify (fun w => with_console w (console w ++ [ConsoleLog "BaseClass is here!"])).

(** [constructor() { super(); Mixin.mixinInits(this, Combinator, MixinNumber,
      { mixin: MixinString, conf: { defaultValue: "Fave nr is: " } }); }] *)
Definition Combinator_constructor : M (traced MixinStringConf) unit :=
  (onWorld BaseClass_constructor ;;;
   mixinInits exampleProgram Combinator
     [Bare MixinNumber;
      Configured MixinString (Some {| defaultValue := Some "Fave nr is: " |}) false])%js.

(** [destroy() { this.mixinDestroys(Combinator); }] of [Combinator]. *)
Definition Combinator_destroy : M (traced MixinStringConf) unit :=
  mixinDestroys exampleProgram Combinator.

(** The state in which the constructor of [new Combinator()] starts. *)
Definition allocated : traced MixinStringConf :=
  (World (Object Combinator [BaseClass] ∅ None None) [] [], []).

Definition MixinStringArg : mixinArg MixinStringConf :=
  Configured MixinString (Some {| defaultValue := Some "Fave nr is: " |}) false.

(** The state a completed call ends in. *)
Definition stateOf {A S} (r : result (A * S)) (otherwise : S) : S :=
  match r with
  | Ok (_, s) => s
  | Throw _ => otherwise
  end.

(** [new Combinator()], then [destroy()]. *)
Definition composed : traced MixinStringConf :=
  stateOf (Combinator_constructor allocated) allocated.

Definition destroyed : traced MixinStringConf :=
  stateOf (Combinator_destroy composed) allocated.

(** [mixinInits(this, Combinator, MixinNumber)], once and twice. *)
Definition numberOnce : traced MixinStringConf :=
  stateOf (mixinInits exampleProgram Combinator [Bare MixinNumber] allocated) allocated.

Definition numberTwice : traced MixinStringConf :=
  stateOf (mixinInits exampleProgram Combinator [Bare MixinNumber] numberOnce) allocated.

(** A variant of the example in which [BaseClass] composes [MixinNumber]
    itself and [Combinator] adds [MixinString]; then teardowns. *)
Definition baseComposed : traced MixinStringConf :=
  stateOf (mixinInits exampleProgram BaseClass [Bare MixinNumber] allocated) allocated.

Definition twoOwners : traced MixinStringConf :=
  stateOf (mixinInits exampleProgram Combinator [MixinStringArg] baseComposed) allocated.

Definition baseTornDown : traced MixinStringConf :=
  stateOf (mixinDestroys exampleProgram BaseClass twoOwners) allocated.

Definition tornDownOnce : traced MixinStringConf :=
  stateOf (mixinDestroys exampleProgram Combinator twoOwners) allocated.

Definition tornDownTwice : traced MixinStringConf :=
  stateOf (mixinDestroys exampleProgram Combinator tornDownOnce) allocated.

(** [MixinString] composed without [MixinNumber]. *)
Definition stringAlone : traced MixinStringConf :=
  stateOf (mixinInits exampleProgram Combinator [MixinStringArg] allocated) allocated.

Definition twoOwnersRegistry : list (class_id * applied) :=
  [(MixinNumber, Applied BaseClass (VFun MixinNumber "MixinNumberDestroy"));
   (MixinString, Applied Combinator (VFun MixinString "MixinStringDestroy"))].

(** In the variant with two owning classes, [mixinDestroys(BaseClass)] a
    second time. *)
Definition baseTornDownTwice : traced MixinStringConf :=
  stateOf (mixinDestroys exampleProgram BaseClass baseTornDown) allocated.

(** [MixinNumber.multiMixin = true], then
    [mixinInits(this, Combinator, MixinNumber)] once and twice. *)
Definition allocatedMulti : traced MixinStringConf :=
  (World (Object Combinator [BaseClass] ∅ None None) [] [MixinNumber], []).

Definition multiOnce : traced MixinStringConf :=
  stateOf (mixinInits exampleProgram Combinator [Bare MixinNumber] allocatedMulti) allocatedMulti.

Definition multiTwice : traced MixinStringConf :=
  stateOf (mixinInits exampleProgram Combinator [Bare MixinNumber] multiOnce) allocatedMulti.

(** A [Combinator] after [this.constructor = undefined]. *)
Definition nameless : world :=
  World (Object Combinator [BaseClass]
           {[ "constructor" := Descriptor VUndefined true true true ]} None None) [] [].

End Example.

(** ** Further vocabulary *)
(** The repeat-initialization policy of an argument of [mixinInits], as the
    data has it: the class of the unit has its static [multiMixin] set, or
    the argument object carries [multiMixin: true]. *)
Definition policyOn {Conf} (w : world) (u : mixinArg Conf) : Prop :=
  In (mixinOf u) (multiMixin w) \/ exists mixin conf, u = Configured mixin conf true.

(** The host satisfies the requirement [T]: [T] is its class or one of its
    ancestors, or its registry has an entry for [T]. *)
Definition meetsRequirement (o : object) (T : class_id) : Prop :=
  In T (hclass o :: ancestors o) \/
  exists m, mixinsApplied o = Some m /\ In T (map fst m).

(** The state in which the finalizers of a teardown start: the counter is
    there, zero when it was absent. *)
Definition counted (w : world) : world :=
  match mixinsDestroyed (host w) with
  | Some _ => w
  | None => with_host w (with_mixinsDestroyed (host w) (Some (Num 0)))
  end.

(** The finalizers of the entries [l] have run from [w] to [w'], one after
    the other in the order of [l]: each entry holds a method, the body of that
    method has run on the state the previous one left, and the counter has
    been incremented after it. *)
Fixpoint finalized {Conf} (P : program Conf) (l : list (class_id * applied))
    (w w' : world) : Prop :=
  match l with
  | [] => w' = w
  | e :: rest =>
      exists c n v w1,
        destroyMethod (snd e) = VFun c n /\
        body P c n None w = Ok (v, w1) /\
        finalized P rest
          (with_host w1 (with_mixinsDestroyed (host w1)
                           (Some (increment (mixinsDestroyed (host w1)))))) w'
  end.

(** The entries of the registry; none when there is no registry. *)
Definition entries (o : object) : list (class_id * applied) :=
  match mixinsApplied o with
  | Some m => m
  | None => []
  end.




(** How the state in which the [forEach] of [mixinInits] starts relates to
    the state before the call: a registry is there, and beyond the members of
    [Mixin] nothing has changed. *)
Definition prepared {Conf} (P : program Conf) (w w0 : world) : Prop :=
  mixinsApplied (host w0) = Some (entries (host w)) /\
  mixinsDestroyed (host w0) = mixinsDestroyed (host w) /\
  hclass (host w0) = hclass (host w) /\ ancestors (host w0) = ancestors (host w) /\
  console w0 = console w /\ multiMixin w0 = multiMixin w /\
  (forall n, n ∉ methodNames P Mixin -> get P (host w0) n = get P (host w) n) /\
  (forall n, n ∉ getOwnPropertyNames P Mixin -> own (host w0) !! n = own (host w) !! n) /\
  (forall c, installable P c (host w) -> installable P c (host w0)).

(** [installable], as a check that can be run. *)
Definition installableb {Conf} (P : program Conf) (c : class_id) (o : object) : bool :=
  forallb (fun n => match own o !! n with
                    | Some cur => configurable cur
                    | None => true
                    end) (getOwnPropertyNames P c).

(** A program with a unit [Half] that declares its initializer and no
    finalizer, to exercise the error path of [mixinInits]. *)
Module Incomplete.

Definition Half : class_id := 1.

Definition Host : class_id := 2.

Definition halfProgram : program unit :=
  Program unit
    (fun c => match c with 1 => "Half" | 2 => "Host" | _ => "" end)
    (fun c => match c with 1 => ["Half"] | _ => [] end)
    (fun _ _ _ => ret VUndefined).

(** A new instance of [Host]. *)
Definition plainHost : world := World (Object Host [] ∅ None None) [] [].

End Incomplete.

(** ** Further runs of the example *)

Module ExampleEdges.
Import Example.

(** [new Combinator()] with [defaultValue] left open. *)
Definition composedWith (d : option string) : traced MixinStringConf :=
  stateOf (mixinInits exampleProgram Combinator
             [Bare MixinNumber; Configured MixinString (Some {| defaultValue := d |}) false]
             allocated) allocated.

(** Then [joinWithNumber()]. *)
Definition joinedWith (d : option string) : world :=
  stateOf (send exampleProgram "joinWithNumber" None (fst (composedWith d))) (fst allocated).

(** What [getString()] shows for a [defaultValue]: [defaultValue || "My value: "]. *)
Definition shown (d : option string) : string :=
  match d with
  | Some (String a s) => String a s
  | _ => "My value: "
  end.

(** [applyMixin(instance, MixinNumber)], then [applyMixin(instance, MixinString)]. *)
Definition numberInstalled : object :=
  stateOf (applyMixin exampleProgram MixinNumber (host (fst allocated))) (host (fst allocated)).

Definition bothInstalled : object :=
  stateOf (applyMixin exampleProgram MixinString numberInstalled) (host (fst allocated)).

(** A [Combinator] on which [getNumber] has been defined as a
    non-configurable property. *)
Definition lockedHost : object :=
  Object Combinator [BaseClass]
    {[ "getNumber" := Descriptor (VNumber (Num 0)) false true false ]} None None.


End ExampleEdges.

(** ** Reasoning about the monad *)

Lemma bind_Ok {S A B} (m : M S A) (k : A -> M S B) s r :
  bind m k s = Ok r -> exists a s1, m s = Ok (a, s1) /\ k a s1 = Ok r.
Proof.
  unfold bind. destruct (m s) as [[a s1]|e]; [eauto | discriminate].
Qed.

Lemma bind_run {S A B} (m : M S A) (k : A -> M S B) s a s1 :
  m s = Ok (a, s1) -> bind m k s = k a s1.
Proof. unfold bind. intros ->. reflexivity. Qed.

Lemma onHost_Ok {A} (m : M object A) w a w' :
  onHost m w = Ok (a, w') -> exists o, m (host w) = Ok (a, o) /\ w' = with_host w o.
Proof.
  unfold onHost. destruct (m (host w)) as [[a' o]|e]; [|discriminate].
  intros [= -> <-]. eauto.
Qed.

Lemma onWorld_Ok {Conf A} (m : M world A) (s : traced Conf) a s' :
  onWorld m s = Ok (a, s') -> exists w, m (fst s) = Ok (a, w) /\ s' = (w, snd s).
Proof.
  unfold onWorld. destruct (m (fst s)) as [[a' w]|e]; [|discriminate].
  intros [= -> <-]. eauto.
Qed.

Lemma forEach_app {S A} (l1 l2 : list A) (f : A -> M S unit) s :
  forEach (l1 ++ l2) f s = bind (forEach l1 f) (fun _ => forEach l2 f) s.
Proof.
  revert s. induction l1 as [|x l1 IH]; intros s; simpl.
  - reflexivity.
  - unfold bind. destruct (f x s) as [[[] s1]|e]; [|reflexivity].
    apply IH.
Qed.

(** ** The [Map] operations *)

Lemma map_has_In {V} (m : list (class_id * V)) k :
  map_has m k = true <-> In k (map fst m).
Proof.
  unfold map_has. rewrite existsb_exists, in_map_iff. split.
  - intros [kv [Hin Heq]]. apply Nat.eqb_eq in Heq. eauto.
  - intros [kv [Heq Hin]]. exists kv. split; [done|]. by apply Nat.eqb_eq.
Qed.

Lemma map_set_absent {V} (m : list (class_id * V)) k v :
  map_has m k = false -> map_set m k v = m ++ [(k, v)].
Proof.
  unfold map_has. induction m as [|[k' v'] m IH]; simpl; [done|].
  intros H. apply orb_false_elim in H as [H1 H2].
  rewrite H1. by rewrite IH.
Qed.

Lemma map_has_app {V} (m1 m2 : list (class_id * V)) k :
  map_has (m1 ++ m2) k = map_has m1 k || map_has m2 k.
Proof. unfold map_has. apply existsb_app. Qed.

Lemma map_has_set {V} (m : list (class_id * V)) k v :
  map_has (map_set m k v) k = true.
Proof.
  unfold map_has. induction m as [|[k' v'] m IH]; simpl.
  - by rewrite Nat.eqb_refl.
  - destruct (Nat.eqb k' k) eqn:E; simpl; rewrite E; [done|]. apply IH.
Qed.

(** ** Property definition and member installation *)

Section Installation.

Context {Conf : Type} (P : program Conf).

Lemma defineProperty_Ok n d o o' :
  defineProperty n d o = Ok (tt, o') -> o' = with_own o (<[n := d]> (own o)).
Proof.
  unfold defineProperty.
  destruct (own o !! n) as [cur|]; [|congruence].
  repeat (case_match; try discriminate); congruence.
Qed.

Lemma defineProperty_configurable n d o :
  (forall cur, own o !! n = Some cur -> configurable cur = true) ->
  defineProperty n d o = Ok (tt, with_own o (<[n := d]> (own o))).
Proof.
  intros H. unfold defineProperty.
  destruct (own o !! n) as [cur|]; [|done].
  by rewrite (H cur eq_refl).
Qed.

Lemma defineProperty_Ok_configurable n d o o' :
  configurable d = true ->
  defineProperty n d o = Ok (tt, o') ->
  forall cur, own o !! n = Some cur -> configurable cur = true.
Proof.
  intros Hd H cur Hcur. unfold defineProperty in H. rewrite Hcur, Hd in H.
  destruct (configurable cur); [done | discriminate].
Qed.

Lemma descriptor_configurable c n d :
  getOwnPropertyDescriptor P c n = Some d -> configurable d = true.
Proof.
  unfold getOwnPropertyDescriptor. repeat case_decide; intros [= <-]; done.
Qed.

Lemma descriptor_of_name c n :
  n ∈ getOwnPropertyNames P c -> is_Some (getOwnPropertyDescriptor P c n).
Proof.
  unfold getOwnPropertyNames, getOwnPropertyDescriptor. intros H.
  case_decide; [eauto|]. case_decide; [eauto|].
  apply elem_of_cons in H as [?|?]; done.
Qed.

Lemma descriptor_of_method c n :
  n ∈ methodNames P c -> n <> "constructor" ->
  getOwnPropertyDescriptor P c n = Some (Descriptor (VFun c n) true false true).
Proof.
  intros Hin Hne. unfold getOwnPropertyDescriptor.
  rewrite decide_False by done. by rewrite decide_True.
Qed.

Lemma copyList_Ok c l o o' :
  forEach l (copyOne P c) o = Ok (tt, o') ->
  hclass o' = hclass o /\ ancestors o' = ancestors o /\
  mixinsApplied o' = mixinsApplied o /\ mixinsDestroyed o' = mixinsDestroyed o /\
  (forall n, own o' !! n =
             if decide (n ∈ l) then getOwnPropertyDescriptor P c n else own o !! n) /\
  (forall n cur, n ∈ l -> own o !! n = Some cur -> configurable cur = true).
Proof.
  revert o. induction l as [|x l IH]; intros o H; simpl in H.
  - injection H as <-. repeat split; try done.
    intros n cur Hn. by apply elem_of_nil in Hn.
  - apply bind_Ok in H as ([] & o1 & Hx & Hrest).
    unfold copyOne in Hx.
    destruct (getOwnPropertyDescriptor P c x) as [d|] eqn:Hd; [|discriminate].
    pose proof (defineProperty_Ok_configurable _ _ _ _ (descriptor_configurable _ _ _ Hd) Hx) as Hcfg.
    apply defineProperty_Ok in Hx. subst o1.
    destruct (IH _ Hrest) as (H1 & H2 & H3 & H4 & H5 & H6). simpl in *.
    repeat split; try done.
    + intros n. rewrite H5.
      destruct (decide (n ∈ l)) as [Hin|Hin].
      * rewrite decide_True; [done | apply elem_of_cons; by right].
      * destruct (decide (n = x)) as [->|Hne].
        -- rewrite lookup_insert_eq, decide_True; [done | apply elem_of_cons; by left].
        -- rewrite lookup_insert_ne by done.
           rewrite decide_False; [done|].
           intros Hc. apply elem_of_cons in Hc as [?|?]; done.
    + intros n cur Hn Hcur.
      destruct (decide (n = x)) as [->|Hne]; [by eapply Hcfg|].
      apply elem_of_cons in Hn as [?|Hn]; [done|].
      eapply (H6 n); [done|]. by rewrite lookup_insert_ne.
Qed.

Lemma copyList_total c l o :
  (forall n, n ∈ l -> is_Some (getOwnPropertyDescriptor P c n)) ->
  (forall n cur, n ∈ l -> own o !! n = Some cur -> configurable cur = true) ->
  exists o', forEach l (copyOne P c) o = Ok (tt, o').
Proof.
  revert o. induction l as [|x l IH]; intros o Hd Hc; simpl.
  - by eexists.
  - destruct (Hd x) as [d Hx]; [(apply elem_of_cons; by left)|].
    assert (copyOne P c x o = Ok (tt, with_own o (<[x := d]> (own o)))) as Hrun.
    { unfold copyOne. rewrite Hx. apply defineProperty_configurable.
      intros cur. apply Hc. apply elem_of_cons; by left. }
    rewrite (bind_run _ _ _ _ _ Hrun).
    apply IH.
    + intros n Hn. apply Hd. apply elem_of_cons; by right.
    + intros n cur Hn. simpl.
      destruct (decide (x = n)) as [->|Hne].
      * rewrite lookup_insert_eq. intros [= <-]. by eapply descriptor_configurable.
      * rewrite lookup_insert_ne by done. apply Hc. apply elem_of_cons; by right.
Qed.

Lemma copyMembers_eq c : copyMembers P c = forEach (getOwnPropertyNames P c) (copyOne P c).
Proof. reflexivity. Qed.

Lemma constructor_is_name c : "constructor" ∈ getOwnPropertyNames P c.
Proof. (apply elem_of_cons; by left). Qed.

Lemma applyMixin_Ok c o o' :
  applyMixin P c o = Ok (tt, o') ->
  installable P c o /\
  o' = with_own o
         (<["constructor" := Descriptor (get P o "constructor") true false true]> (own o')) /\
  own o' !! "constructor" = Some (Descriptor (get P o "constructor") true false true) /\
  (forall n, n <> "constructor" ->
     own o' !! n = if decide (n ∈ getOwnPropertyNames P c)
                   then getOwnPropertyDescriptor P c n else own o !! n).
Proof.
  unfold applyMixin. intros H.
  apply bind_Ok in H as (save & o0 & Hsave & H). injection Hsave as <- <-.
  apply bind_Ok in H as ([] & o1 & Hcopy & Hset).
  rewrite copyMembers_eq in Hcopy.
  apply copyList_Ok in Hcopy as (H1 & H2 & H3 & H4 & H5 & H6).
  pose proof (H5 "constructor") as Hc.
  rewrite decide_True in Hc by apply constructor_is_name.
  unfold getOwnPropertyDescriptor in Hc. rewrite decide_True in Hc by done.
  unfold setProperty in Hset. rewrite Hc in Hset. simpl in Hset.
  injection Hset as <-. simpl.
  split; [exact H6|]. split.
  - destruct o, o1; simpl in *. subst. f_equal. by rewrite insert_insert_eq.
  - split; [by rewrite lookup_insert_eq|].
    intros n Hn. rewrite lookup_insert_ne by done. apply H5.
Qed.

Lemma applyMixin_total c o :
  installable P c o -> exists o', applyMixin P c o = Ok (tt, o').
Proof.
  intros Hi. unfold applyMixin.
  destruct (copyList_total c (getOwnPropertyNames P c) o) as [o1 Hcopy].
  { intros n. apply descriptor_of_name. }
  { exact Hi. }
  rewrite (bind_run _ _ o (get P o "constructor") o) by reflexivity.
  rewrite copyMembers_eq, (bind_run _ _ _ _ _ Hcopy).
  apply copyList_Ok in Hcopy as (_ & _ & _ & _ & H5 & _).
  pose proof (H5 "constructor") as Hc.
  rewrite decide_True in Hc by apply constructor_is_name.
  unfold getOwnPropertyDescriptor in Hc. rewrite decide_True in Hc by done.
  unfold setProperty. rewrite Hc. simpl. by eexists.
Qed.

Lemma applyMixin_fields c o o' :
  applyMixin P c o = Ok (tt, o') ->
  hclass o' = hclass o /\ ancestors o' = ancestors o /\
  mixinsApplied o' = mixinsApplied o /\ mixinsDestroyed o' = mixinsDestroyed o.
Proof.
  intros H. apply applyMixin_Ok in H as (_ & -> & _). done.
Qed.

Lemma get_own o n d : own o !! n = Some d -> get P o n = dvalue d.
Proof. unfold get. by intros ->. Qed.

Lemma applyMixin_constructor c o o' :
  applyMixin P c o = Ok (tt, o') -> get P o' "constructor" = get P o "constructor".
Proof.
  intros H. apply applyMixin_Ok in H as (_ & _ & H & _).
  by rewrite (get_own _ _ _ H).
Qed.

End Installation.

(** ** Member installation: [applyMixin] *)

Section ApplyMixin.

Context {Conf : Type} (P : program Conf).

(** C8.  On a host where the members of [U] can be defined, [applyMixin]
    completes; the host then reports the same [constructor] as before (its
    own class, not [U]); the [forEach] has copied every own descriptor of
    [U.prototype] onto the host, and all of them except [constructor], whose
    value is put back, are still there at the end; nothing else on the host
    changes. *)
Theorem applyMixin_installs_members_keeps_constructor (U : class_id) (o : object) :
  installable P U o ->
  exists o1 o',
    copyMembers P U o = Ok (tt, o1) /\
    (forall n, n ∈ getOwnPropertyNames P U ->
       is_Some (own o1 !! n) /\ own o1 !! n = getOwnPropertyDescriptor P U n) /\
    applyMixin P U o = Ok (tt, o') /\
    get P o' "constructor" = get P o "constructor" /\
    (forall n, n ∈ getOwnPropertyNames P U -> n <> "constructor" ->
       own o' !! n = own o1 !! n) /\
    own o' !! "constructor" = Some (Descriptor (get P o "constructor") true false true) /\
    (forall n, n ∉ getOwnPropertyNames P U -> own o' !! n = own o !! n) /\
    hclass o' = hclass o /\ ancestors o' = ancestors o /\
    mixinsApplied o' = mixinsApplied o /\ mixinsDestroyed o' = mixinsDestroyed o.
Proof.
  intros Hi.
  destruct (copyList_total P U (getOwnPropertyNames P U) o) as [o1 Hcopy].
  { intros n. apply descriptor_of_name. }
  { exact Hi. }
  destruct (applyMixin_total P U o Hi) as [o' Happly].
  exists o1, o'. rewrite copyMembers_eq.
  pose proof (copyList_Ok _ _ _ _ _ Hcopy) as (_ & _ & _ & _ & H5 & _).
  pose proof (applyMixin_fields _ _ _ _ Happly) as (F1 & F2 & F3 & F4).
  pose proof (applyMixin_constructor _ _ _ _ Happly) as Hctor.
  pose proof (applyMixin_Ok _ _ _ _ Happly) as (_ & _ & Hc & Hn).
  split; [done|]. split.
  { intros n Hin. rewrite H5, decide_True by done.
    split; [by apply descriptor_of_name | done]. }
  split; [done|]. split; [done|]. split.
  { intros n Hin Hne. by rewrite Hn, H5. }
  split; [done|]. split; [|done].
  intros n Hin. rewrite Hn.
  - by rewrite decide_False.
  - intros ->. apply Hin, constructor_is_name.
Qed.

End ApplyMixin.

(** ** Unfolding the framework calls *)

Section Steps.

Context {Conf : Type} (P : program Conf).

Lemma mixinInits_unfold C l (w : world) (t : list (event Conf)) :
  mixinInits P C l (w, t) =
  match mixinsApplied (host w) with
  | Some _ => forEach l (initOne P C) (w, t)
  | None =>
      match applyMixin P Mixin (host w) with
      | Ok (_, o1) =>
          forEach l (initOne P C) (with_host w (with_mixinsApplied o1 (Some [])), t)
      | Throw e => Throw e
      end
  end.
Proof.
  unfold mixinInits, bind, onWorld, onHost, gets, when, modify, ret. simpl.
  destruct (mixinsApplied (host w)) as [m|]; simpl; [done|].
  destruct (applyMixin P Mixin (host w)) as [[[] o1]|e]; simpl; done.
Qed.

Lemma initOne_attached C u (w : world) (t : list (event Conf)) :
  hasMixin (host w) (mixinOf u) = true ->
  initOne P C u (w, t) =
  if multiMixinOf w u then
    match call P (get P (host w) (name P (mixinOf u))) (confOf u) w with
    | Ok (_, w') => Ok (tt, (w', t ++ [Init (mixinOf u) (get P (host w) (name P (mixinOf u))) (confOf u)]))
    | Throw e => Throw e
    end
  else Ok (tt, (w, t)).
Proof.
  intros Hhas.
  unfold initOne, bind, onWorld, onHost, gets, when, emit, ret. simpl.
  rewrite Hhas. simpl.
  destruct (multiMixinOf w u); simpl; [|done].
  destruct (call P _ _ w) as [[v w']|e]; simpl; done.
Qed.

Lemma initOne_first C u (w : world) (t : list (event Conf)) :
  hasMixin (host w) (mixinOf u) = false ->
  initOne P C u (w, t) =
  match applyMixin P (mixinOf u) (host w) with
  | Ok (_, o1) =>
      let f := get P o1 (name P (mixinOf u)) in
      match call P f (confOf u) (with_host w o1) with
      | Ok (_, w2) =>
          match recordApplied P C (mixinOf u) (host w2) with
          | Ok (_, o3) => Ok (tt, (with_host w2 o3, t ++ [Init (mixinOf u) f (confOf u)]))
          | Throw e => Throw e
          end
      | Throw e => Throw e
      end
  | Throw e => Throw e
  end.
Proof.
  intros Hhas.
  unfold initOne, bind, onWorld, onHost, gets, when, emit, ret. simpl.
  rewrite Hhas. simpl.
  destruct (applyMixin P (mixinOf u) (host w)) as [[[] o1]|e]; simpl; [|done].
  rewrite orb_true_r. simpl.
  destruct (call P _ _ _) as [[v w2]|e]; simpl; [|done].
  destruct (recordApplied P C (mixinOf u) (host w2)) as [[[] o3]|e]; simpl; done.
Qed.

Lemma recordApplied_Ok C U o o' :
  recordApplied P C U o = Ok (tt, o') ->
  exists m d,
    mixinsApplied o = Some m /\
    bindMethod (get P o (name P U +:+ "Destroy")) = Ok d /\
    o' = with_mixinsApplied o (Some (map_set m U (Applied C d))).
Proof.
  unfold recordApplied.
  destruct (mixinsApplied o) as [m|]; [|discriminate].
  destruct (bindMethod _) as [d|e]; [|discriminate].
  intros [= <-]. eauto.
Qed.

Lemma bindMethod_Ok f d : bindMethod f = Ok d -> d = f.
Proof. destruct f; simpl; congruence. Qed.

(** A call that returns has run the body of a method. *)
Lemma call_Ok f arg (w w' : world) v :
  call P f arg w = Ok (v, w') ->
  exists c n, f = VFun c n /\ body P c n arg w = Ok (v, w').
Proof.
  destruct f; simpl; try discriminate. eauto.
Qed.

End Steps.

Section Composition.

Context {Conf : Type} (P : program Conf).

Lemma initializations_snoc U (t : list (event Conf)) f conf :
  initializations U (t ++ [Init U f conf]) = S (initializations U t).
Proof.
  unfold initializations. rewrite List.filter_app, length_app. simpl.
  rewrite Nat.eqb_refl. simpl. lia.
Qed.

Lemma initOne_first_Ok C u (w w' : world) (t t' : list (event Conf)) :
  hasMixin (host w) (mixinOf u) = false ->
  initOne P C u (w, t) = Ok (tt, (w', t')) ->
  exists o1 v w2 m,
    applyMixin P (mixinOf u) (host w) = Ok (tt, o1) /\
    call P (get P o1 (name P (mixinOf u))) (confOf u) (with_host w o1) = Ok (v, w2) /\
    mixinsApplied (host w2) = Some m /\
    bindMethod (get P (host w2) (name P (mixinOf u) +:+ "Destroy"))
      = Ok (get P (host w2) (name P (mixinOf u) +:+ "Destroy")) /\
    w' = with_host w2 (with_mixinsApplied (host w2)
           (Some (map_set m (mixinOf u)
                    (Applied C (get P (host w2) (name P (mixinOf u) +:+ "Destroy")))))) /\
    t' = t ++ [Init (mixinOf u) (get P o1 (name P (mixinOf u))) (confOf u)].
Proof.
  intros Hhas H. rewrite (initOne_first P C u w t Hhas) in H.
  destruct (applyMixin P (mixinOf u) (host w)) as [[[] o1]|e]; [|discriminate].
  simpl in H.
  destruct (call P _ _ _) as [[v w2]|e] eqn:Hcall; [|discriminate].
  destruct (recordApplied P C (mixinOf u) (host w2)) as [[[] o3]|e] eqn:Hrec; [|discriminate].
  injection H as <- <-.
  apply recordApplied_Ok in Hrec as (m & d & Hm & Hd & ->).
  pose proof (bindMethod_Ok _ _ Hd) as ->.
  exists o1, v, w2, m. done.
Qed.

Lemma installed_method U o o1 n :
  applyMixin P U o = Ok (tt, o1) ->
  n ∈ methodNames P U -> n <> "constructor" ->
  own o1 !! n = Some (Descriptor (VFun U n) true false true).
Proof.
  intros H Hin Hne.
  apply applyMixin_Ok in H as (_ & _ & _ & H).
  rewrite H by done.
  rewrite decide_True by (apply elem_of_cons; by right).
  by apply descriptor_of_method.
Qed.

Lemma first_attachment C u (w w' : world) (t t' : list (event Conf)) :
  hasMixin (host w) (mixinOf u) = false ->
  forEach [u] (initOne P C) (w, t) = Ok (tt, (w', t')) ->
  hasMixin (host w') (mixinOf u) = true /\
  exists f,
    t' = t ++ [Init (mixinOf u) f (confOf u)] /\
    (name P (mixinOf u) ∈ methodNames P (mixinOf u) ->
     name P (mixinOf u) <> "constructor" ->
     f = VFun (mixinOf u) (name P (mixinOf u))).
Proof.
  intros Hhas H. simpl in H.
  apply bind_Ok in H as ([] & [w1 t1] & H & Hret). injection Hret as <- <-.
  apply initOne_first_Ok in H as (o1 & v & w2 & m & Happly & _ & _ & _ & -> & ->); [|done].
  split.
  - unfold hasMixin. simpl. apply map_has_set.
  - eexists. split; [done|].
    intros Hin Hne.
    by rewrite (get_own P _ _ _ (installed_method _ _ _ _ Happly Hin Hne)).
Qed.

(** C1.  When [U] is not yet attached to the host and the call
    [mixinInits(H, C, U)] completes, [hasMixin(H, U)] is true afterwards and
    the initializer has run exactly once: the call has looked up one method
    under [U.name] on the host with the members installed -- the method [U]
    declares under its own name, when it declares one --, the body of that
    method has run once on that host, and the final state is the state that
    this one run has left, with the entry of [U] added to the registry. *)
Theorem mixinInits_attaches_and_initializes_once
    (C : class_id) (u : mixinArg Conf) (w w' : world) (t t' : list (event Conf)) :
  hasMixin (host w) (mixinOf u) = false ->
  mixinInits P C [u] (w, t) = Ok (tt, (w', t')) ->
  hasMixin (host w') (mixinOf u) = true /\
  initializations (mixinOf u) t' = S (initializations (mixinOf u) t) /\
  exists c n w0 o1 v w2 m,
    (w0 = w \/
     exists o0, mixinsApplied (host w) = None /\
                applyMixin P Mixin (host w) = Ok (tt, o0) /\
                w0 = with_host w (with_mixinsApplied o0 (Some []))) /\
    applyMixin P (mixinOf u) (host w0) = Ok (tt, o1) /\
    get P o1 (name P (mixinOf u)) = VFun c n /\
    (name P (mixinOf u) ∈ methodNames P (mixinOf u) ->
     name P (mixinOf u) <> "constructor" ->
     c = mixinOf u /\ n = name P (mixinOf u)) /\
    body P c n (confOf u) (with_host w0 o1) = Ok (v, w2) /\
    mixinsApplied (host w2) = Some m /\
    w' = with_host w2 (with_mixinsApplied (host w2)
           (Some (map_set m (mixinOf u)
                    (Applied C (get P (host w2) (name P (mixinOf u) +:+ "Destroy")))))) /\
    t' = t ++ [Init (mixinOf u) (VFun c n) (confOf u)].
Proof.
  intros Hhas H. rewrite mixinInits_unfold in H.
  assert (exists w0,
            (w0 = w \/
             exists o0, mixinsApplied (host w) = None /\
                        applyMixin P Mixin (host w) = Ok (tt, o0) /\
                        w0 = with_host w (with_mixinsApplied o0 (Some []))) /\
            hasMixin (host w0) (mixinOf u) = false /\
            forEach [u] (initOne P C) (w0, t) = Ok (tt, (w', t')))
    as (w0 & Hstart & Hhas0 & H0).
  { destruct (mixinsApplied (host w)) as [m|] eqn:Hm.
    - exists w. eauto.
    - destruct (applyMixin P Mixin (host w)) as [[[] o0]|e] eqn:Happly; [|discriminate].
      eexists. split; [right; eauto|]. split; [done | exact H]. }
  simpl in H0. apply bind_Ok in H0 as ([] & [w1 t1] & H0 & Hret). injection Hret as <- <-.
  apply initOne_first_Ok in H0 as (o1 & v & w2 & m & Happly & Hcall & Hm & _ & -> & ->);
    [|done].
  destruct (call_Ok P _ _ _ _ _ Hcall) as (c & n & Hf & Hbody).
  split; [unfold hasMixin; simpl; apply map_has_set|].
  split; [apply initializations_snoc|].
  exists c, n, w0, o1, v, w2, m.
  split; [exact Hstart|]. split; [exact Happly|]. split; [exact Hf|]. split.
  { intros Hin Hne.
    rewrite (get_own P _ _ _ (installed_method _ _ _ _ Happly Hin Hne)) in Hf.
    simpl in Hf. by injection Hf as <- <-. }
  split; [exact Hbody|]. split; [exact Hm|]. split; [reflexivity|].
  by rewrite Hf.
Qed.

End Composition.

Section Repetition.

Context {Conf : Type} (P : program Conf).

Lemma filter_isKey_absent {V} (m : list (class_id * V)) U :
  map_has m U = false -> List.filter (isKey U) m = [].
Proof.
  unfold map_has. induction m as [|e m IH]; simpl; [done|].
  intros H. apply orb_false_elim in H as [H1 H2].
  assert (isKey U e = false) as -> by exact H1. by apply IH.
Qed.

(** The state after the first attachment of a unit that declares its
    initializer and whose initializer leaves the registry and the installed
    members alone. *)
Lemma first_attachment_state C u (w w' : world) (t t' : list (event Conf)) m0 :
  let U := mixinOf u in
  name P U ∈ methodNames P U -> name P U <> "constructor" ->
  (forall conf, keepsRegistry (body P U (name P U) conf)) ->
  (forall conf, keepsProperties (getOwnPropertyNames P U) (body P U (name P U) conf)) ->
  mixinsApplied (host w) = Some m0 -> map_has m0 U = false ->
  forEach [u] (initOne P C) (w, t) = Ok (tt, (w', t')) ->
  t' = t ++ [Init U (VFun U (name P U)) (confOf u)] /\
  (forall n, n ∈ getOwnPropertyNames P U -> n <> "constructor" ->
     own (host w') !! n = getOwnPropertyDescriptor P U n) /\
  get P (host w') "constructor" = get P (host w) "constructor" /\
  mixinsApplied (host w') =
    Some (m0 ++ [(U, Applied C (get P (host w') (name P U +:+ "Destroy")))]) /\
  bindMethod (get P (host w') (name P U +:+ "Destroy"))
    = Ok (get P (host w') (name P U +:+ "Destroy")).
Proof.
  intros U Hdecl Hne Hreg Hprops Hm0 Habsent H. simpl in H.
  apply bind_Ok in H as ([] & [w1 t1] & H & Hret). injection Hret as <- <-.
  assert (hasMixin (host w) (mixinOf u) = false) as Hhas.
  { unfold hasMixin. by rewrite Hm0. }
  apply initOne_first_Ok in H as (o1 & v & w2 & m & Happly & Hcall & Hm & Hbind & -> & ->);
    [|done].
  fold U in Happly, Hcall, Hm, Hbind |- *.
  pose proof (installed_method P _ _ _ _ Happly Hdecl Hne) as Hown.
  rewrite (get_own P _ _ _ Hown) in Hcall |- *. simpl in Hcall.
  pose proof (Hreg _ _ _ _ Hcall) as Hr. simpl in Hr.
  pose proof (Hprops _ _ _ _ Hcall) as Hp. simpl in Hp.
  pose proof (applyMixin_fields P _ _ _ Happly) as (_ & _ & Hr1 & _).
  pose proof (applyMixin_Ok P _ _ _ Happly) as (_ & _ & Hctor & Hn).
  assert (m = m0) as -> by congruence.
  simpl. split; [done|]. split.
  { intros n Hin Hnc. rewrite Hp, Hn by done. by rewrite decide_True. }
  split.
  { unfold get at 1. simpl. rewrite Hp by apply constructor_is_name.
    by rewrite Hctor. }
  by rewrite map_set_absent.
Qed.

(** Two units attached by one call are recorded in the order of the
    arguments, after what the registry held before. *)
Lemma attachments_recorded_in_order C u1 u2 (w w' : world) (t t' : list (event Conf)) m0 :
  let U1 := mixinOf u1 in
  let U2 := mixinOf u2 in
  U1 <> U2 ->
  name P U1 ∈ methodNames P U1 -> name P U1 <> "constructor" ->
  name P U2 ∈ methodNames P U2 -> name P U2 <> "constructor" ->
  (forall U conf, keepsRegistry (body P U (name P U) conf)) ->
  (forall U conf, keepsProperties (getOwnPropertyNames P U) (body P U (name P U) conf)) ->
  mixinsApplied (host w) = Some m0 -> map_has m0 U1 = false -> map_has m0 U2 = false ->
  forEach [u1; u2] (initOne P C) (w, t) = Ok (tt, (w', t')) ->
  exists e1 e2,
    mixinsApplied (host w') = Some (m0 ++ [(U1, e1); (U2, e2)]) /\
    classApplyingMixin e1 = C /\ classApplyingMixin e2 = C.
Proof.
  intros U1 U2 Hne Hd1 Hc1 Hd2 Hc2 Hreg Hprops Hm0 Ha1 Ha2 H.
  change [u1; u2] with ([u1] ++ [u2]) in H. rewrite forEach_app in H.
  apply bind_Ok in H as ([] & [w1 t1] & H1 & H2).
  destruct (first_attachment_state C u1 _ _ _ _ m0 Hd1 Hc1 (Hreg U1) (Hprops U1) Hm0 Ha1 H1)
    as (_ & _ & _ & Hr1 & _).
  fold U1 in Hr1.
  assert (map_has (m0 ++ [(U1, Applied C (get P (host w1) (name P U1 +:+ "Destroy")))]) U2
          = false) as Ha2'.
  { rewrite map_has_app, Ha2. unfold map_has. simpl.
    rewrite orb_false_r. by apply Nat.eqb_neq. }
  destruct (first_attachment_state C u2 _ _ _ _ _ Hd2 Hc2 (Hreg U2) (Hprops U2) Hr1 Ha2' H2)
    as (_ & _ & _ & Hr2 & _).
  fold U2 in Hr2. rewrite <- app_assoc in Hr2. simpl in Hr2.
  eexists _, _. split; [exact Hr2|]. done.
Qed.

End Repetition.

Section SecondCall.

Context {Conf : Type} (P : program Conf).

Lemma snoc_neq {A} (l : list A) x : l ++ [x] <> l.
Proof.
  intros H. apply (f_equal length) in H. rewrite length_app in H. simpl in H. lia.
Qed.

(** The test of [mixinInits] for the repeat-initialization policy reads
    the static [multiMixin] of the class of the unit and the [multiMixin] of
    the argument object. *)
Lemma multiMixinOf_policy (w : world) (u : mixinArg Conf) :
  multiMixinOf w u = true <-> policyOn w u.
Proof.
  assert (forall c, staticMultiMixin w c = true <-> In c (multiMixin w)) as Hs.
  { intros c. unfold staticMultiMixin. rewrite existsb_exists. split.
    - intros (x & Hin & Heq). apply Nat.eqb_eq in Heq. by subst.
    - intros Hin. exists c. split; [done | apply Nat.eqb_refl]. }
  unfold policyOn. destruct u as [c|mixin conf prop]; simpl.
  - rewrite Hs. split; [by left|]. intros [H|(? & ? & ?)]; [done | discriminate].
  - rewrite orb_true_iff, Hs. split.
    + intros [->|H]; [right; eauto | by left].
    + intros [H|(mixin' & conf' & Heq)]; [by right|]. left. congruence.
Qed.

(** C2.  Let [U] declare its initializer, and let that initializer leave the
    registry and the installed members of [U] alone.  After a first
    [mixinInits(H, C, U)] on a host without [U], a second one calls the
    initializer again exactly when the policy is on -- the static
    [multiMixin] of [U] is set at that moment, or the argument object carries
    [multiMixin: true]: the body of the initializer then runs a second time,
    on the state the first call has left, and has run twice in total;
    otherwise it has run once, the second call changing nothing.  In both
    cases the members of [U] are still installed and the registry holds
    exactly one entry for [U]. *)
Theorem repeated_mixinInits_follows_multiMixin
    (C : class_id) (u : mixinArg Conf) (w0 w1 w2 : world) (t0 t1 t2 : list (event Conf)) :
  let U := mixinOf u in
  let init := Init U (VFun U (name P U)) (confOf u) in
  name P U ∈ methodNames P U -> name P U <> "constructor" ->
  (forall conf, keepsRegistry (body P U (name P U) conf)) ->
  (forall conf, keepsProperties (getOwnPropertyNames P U) (body P U (name P U) conf)) ->
  hasMixin (host w0) U = false ->
  mixinInits P C [u] (w0, t0) = Ok (tt, (w1, t1)) ->
  mixinInits P C [u] (w1, t1) = Ok (tt, (w2, t2)) ->
  t1 = t0 ++ [init] /\
  (t2 = t1 ++ [init] <-> policyOn w1 u) /\
  (~ policyOn w1 u ->
     t2 = t1 /\ w2 = w1 /\ initializations U t2 = S (initializations U t0)) /\
  (policyOn w1 u ->
     initializations U t2 = S (S (initializations U t0)) /\
     exists v, body P U (name P U) (confOf u) w1 = Ok (v, w2)) /\
  (forall n, n ∈ getOwnPropertyNames P U -> n <> "constructor" ->
     own (host w2) !! n = getOwnPropertyDescriptor P U n) /\
  hasMixin (host w2) U = true /\
  exists m, mixinsApplied (host w2) = Some m /\ length (List.filter (isKey U) m) = 1.
Proof.
  intros U init Hdecl Hne Hreg Hprops Hhas H1 H2.
  (* the first call *)
  rewrite mixinInits_unfold in H1.
  assert (exists w m0, mixinsApplied (host w) = Some m0 /\ map_has m0 U = false /\
            forEach [u] (initOne P C) (w, t0) = Ok (tt, (w1, t1))) as (w & m0 & Hm0 & Habs & H).
  { destruct (mixinsApplied (host w0)) as [m|] eqn:Hm.
    - exists w0, m. unfold hasMixin in Hhas. rewrite Hm in Hhas. done.
    - destruct (applyMixin P Mixin (host w0)) as [[[] o1]|e]; [|discriminate].
      eexists _, []. split; [|split; [|exact H1]]; done. }
  destruct (first_attachment_state P C u _ _ _ _ m0 Hdecl Hne Hreg Hprops Hm0 Habs H)
    as (Ht1 & Hmembers & _ & Hregistry & _).
  fold U in Ht1, Hmembers, Hregistry. fold init in Ht1.
  assert (hasMixin (host w1) U = true) as Hhas1.
  { unfold hasMixin. rewrite Hregistry. apply map_has_In.
    rewrite map_app, in_app_iff. right. simpl. by left. }
  assert (length (List.filter (isKey U) (m0 ++ [(U, Applied C (get P (host w1) (name P U +:+ "Destroy")))])) = 1)
    as Hcount.
  { rewrite List.filter_app, (filter_isKey_absent m0 U Habs). simpl.
    unfold isKey. simpl. by rewrite Nat.eqb_refl. }
  (* the second call *)
  rewrite mixinInits_unfold, Hregistry in H2. simpl in H2.
  apply bind_Ok in H2 as ([] & [w2' t2'] & H2 & Hret). injection Hret as <- <-.
  rewrite (initOne_attached P C u w1 t1 Hhas1) in H2.
  fold U in H2.
  assert (get P (host w1) (name P U) = VFun U (name P U)) as Hget.
  { apply (get_own P _ _ (Descriptor (VFun U (name P U)) true false true)).
    rewrite Hmembers; [by apply descriptor_of_method | apply elem_of_cons; by right | done]. }
  rewrite Hget in H2. fold init in H2.
  split; [done|].
  destruct (multiMixinOf w1 u) eqn:Hmulti.
  - pose proof (proj1 (multiMixinOf_policy w1 u) Hmulti) as Hon.
    destruct (call P (VFun U (name P U)) (confOf u) w1) as [[v w2'']|e] eqn:Hcall;
      [|discriminate].
    injection H2 as <- <-.
    destruct (call_Ok P _ _ _ _ _ Hcall) as (c & n & Hf & Hbody).
    injection Hf as <- <-.
    pose proof (Hreg _ _ _ _ Hbody) as Hr.
    pose proof (Hprops _ _ _ _ Hbody) as Hp.
    split; [by split|]. split; [intros Hoff; by destruct Hoff|]. split.
    { intros _. split; [|by exists v]. subst t1. unfold init.
      by rewrite !initializations_snoc. }
    split.
    { intros n Hin Hnc. rewrite Hp by done. by apply Hmembers. }
    split.
    { unfold hasMixin in *. by rewrite Hr. }
    eexists. split; [by rewrite Hr|done].
  - assert (~ policyOn w1 u) as Hoff.
    { intros Hon. apply multiMixinOf_policy in Hon. congruence. }
    injection H2 as <- <-.
    split.
    { split; [|done]. intros Heq. symmetry in Heq. by apply snoc_neq in Heq. }
    split.
    { intros _. subst t1. unfold init. by rewrite initializations_snoc. }
    split; [done|]. split; [done|]. split; [done|]. eauto.
Qed.

End SecondCall.

Section Teardown.

Context {Conf : Type} (P : program Conf).

Lemma mixinDestroys_unfold C (w : world) (t : list (event Conf)) :
  mixinDestroys P C (w, t) =
  match mixinsApplied (host w) with
  | None => Ok (tt, (w, t))
  | Some m =>
      let w0 := match mixinsDestroyed (host w) with
                | Some _ => w
                | None => with_host w (with_mixinsDestroyed (host w) (Some (Num 0)))
                end in
      match forEach (rev (List.filter (ownedBy C) m)) (destroyOne P) (w0, t) with
      | Ok (_, (w1, t1)) =>
          match retire (host w1) with
          | Ok (_, o) => Ok (tt, (with_host w1 o, t1))
          | Throw e => Throw e
          end
      | Throw e => Throw e
      end
  end.
Proof.
  unfold mixinDestroys, bind, onWorld, onHost, gets, when, modify, ret. simpl.
  destruct (mixinsApplied (host w)) as [m|]; simpl; [|done].
  destruct (mixinsDestroyed (host w)) as [k|]; simpl.
  - destruct (forEach _ _ _) as [[[] [w1 t1]]|e]; simpl; [|done].
    destruct (retire (host w1)) as [[[] o]|e]; done.
  - destruct (forEach _ _ _) as [[[] [w1 t1]]|e]; simpl; [|done].
    destruct (retire (host w1)) as [[[] o]|e]; done.
Qed.

Lemma destroyOne_unfold e (w : world) (t : list (event Conf)) :
  destroyOne P e (w, t) =
  match call P (destroyMethod (snd e)) None w with
  | Ok (_, w1) =>
      Ok (tt, (with_host w1 (with_mixinsDestroyed (host w1)
                               (Some (increment (mixinsDestroyed (host w1))))),
               t ++ [destroyEvent e]))
  | Throw e => Throw e
  end.
Proof.
  unfold destroyOne, bind, onWorld, onHost, emit, modify, ret. simpl.
  destruct (call P _ _ w) as [[v w1]|x]; done.
Qed.

(** Whatever the finalizers do, the calls made are those of the given
    entries, in the given order. *)
Lemma destroy_trace l (w w' : world) (t t' : list (event Conf)) :
  forEach l (destroyOne P) (w, t) = Ok (tt, (w', t')) ->
  t' = t ++ map destroyEvent l.
Proof.
  revert w t. induction l as [|e l IH]; intros w t H; simpl in H.
  - injection H as <- <-. simpl. by rewrite app_nil_r.
  - apply bind_Ok in H as ([] & [w1 t1] & H1 & H).
    rewrite destroyOne_unfold in H1.
    destruct (call P _ _ w) as [[v w2]|x]; [|discriminate].
    injection H1 as <- <-.
    apply IH in H. subst t'. simpl. by rewrite <- app_assoc.
Qed.

(** With quiet finalizers the registry stays and the counter grows by the
    number of entries. *)
Lemma destroy_bookkeeping l (w w' : world) (t t' : list (event Conf)) k :
  (forall e, In e l -> quietFinalizer P e) ->
  mixinsDestroyed (host w) = Some (Num k) ->
  forEach l (destroyOne P) (w, t) = Ok (tt, (w', t')) ->
  mixinsApplied (host w') = mixinsApplied (host w) /\
  mixinsDestroyed (host w') = Some (Num (k + Z.of_nat (length l))).
Proof.
  revert w t k. induction l as [|e l IH]; intros w t k Hq Hk H; simpl in H.
  - injection H as <- <-. simpl. split; [done|]. rewrite Hk. do 2 f_equal. lia.
  - apply bind_Ok in H as ([] & [w1 t1] & H1 & H).
    rewrite destroyOne_unfold in H1.
    destruct (call P _ _ w) as [[v w2]|x] eqn:Hcall; [|discriminate].
    injection H1 as <- <-.
    destruct (Hq e (or_introl eq_refl)) as [Hr Hc].
    pose proof (Hr _ _ _ Hcall) as Hr'. pose proof (Hc _ _ _ Hcall) as Hc'.
    apply (IH _ _ (k + 1)%Z) in H.
    + destruct H as [-> ->]. simpl. split; [done|].
      do 2 f_equal. lia.
    + intros e' He'. apply Hq. by right.
    + simpl. by rewrite Hc', Hk.
Qed.

(** Properties that every finalizer leaves alone are left alone. *)
Lemma destroy_properties names l (w w' : world) (t t' : list (event Conf)) :
  (forall e, In e l -> keepsProperties names (call P (destroyMethod (snd e)) None)) ->
  forEach l (destroyOne P) (w, t) = Ok (tt, (w', t')) ->
  forall n, n ∈ names -> own (host w') !! n = own (host w) !! n.
Proof.
  revert w t. induction l as [|e l IH]; intros w t Hq H n Hn; simpl in H.
  - by injection H as <- <-.
  - apply bind_Ok in H as ([] & [w1 t1] & H1 & H).
    rewrite destroyOne_unfold in H1.
    destruct (call P _ _ w) as [[v w2]|x] eqn:Hcall; [|discriminate].
    injection H1 as <- <-.
    rewrite (IH _ _ (fun e' He' => Hq e' (or_intror He')) H n Hn). simpl.
    by apply (Hq e (or_introl eq_refl) _ _ _ Hcall).
Qed.

Lemma retire_Ok o o' :
  retire o = Ok (tt, o') ->
  exists m, mixinsApplied o = Some m /\
    ((sizeEquals (map_size m) (mixinsDestroyed o) = true /\
      o' = with_mixinsDestroyed (with_mixinsApplied o None) None) \/
     (sizeEquals (map_size m) (mixinsDestroyed o) = false /\ o' = o)).
Proof.
  unfold retire. destruct (mixinsApplied o) as [m|]; [|discriminate].
  destruct (sizeEquals _ _) eqn:E; intros [= <-]; eauto.
Qed.

(** The loop of a teardown runs the bodies of the finalizers, in the order
    of the list. *)
Lemma destroy_run l (w w' : world) (t t' : list (event Conf)) :
  forEach l (destroyOne P) (w, t) = Ok (tt, (w', t')) -> finalized P l w w'.
Proof.
  revert w t. induction l as [|e l IH]; intros w t H; simpl in H.
  - by injection H as <- <-.
  - apply bind_Ok in H as ([] & [w1 t1] & H1 & H).
    rewrite destroyOne_unfold in H1.
    destruct (call P _ _ w) as [[v w2]|x] eqn:Hcall; [|discriminate].
    injection H1 as <- <-.
    destruct (call_Ok P _ _ _ _ _ Hcall) as (c & n & Hf & Hbody).
    simpl. exists c, n, v, w2. split; [done|]. split; [done|]. by eapply IH.
Qed.

(** What a completed teardown has done to the host: the finalizers of the
    entries of the class have run, last attached first, and then only the
    bookkeeping has changed. *)
Lemma mixinDestroys_run C (m : list (class_id * applied)) (w w' : world)
    (t t' : list (event Conf)) :
  mixinsApplied (host w) = Some m ->
  mixinDestroys P C (w, t) = Ok (tt, (w', t')) ->
  exists w1,
    finalized P (rev (List.filter (ownedBy C) m)) (counted w) w1 /\
    own (host w') = own (host w1) /\ console w' = console w1.
Proof.
  intros Hm H. rewrite mixinDestroys_unfold, Hm in H. simpl in H.
  destruct (forEach _ _ _) as [[[] [w1 t1]]|x] eqn:Hloop; [|discriminate].
  destruct (retire (host w1)) as [[[] o]|x] eqn:Hret; [|discriminate].
  injection H as <- <-.
  exists w1. split; [by apply destroy_run in Hloop|].
  apply retire_Ok in Hret as (m' & _ & [[_ ->]|[_ ->]]); done.
Qed.

(** C3.  When the registry lists [U1] before [U2], both attached by [C],
    [mixinDestroys(C)] runs the finalizer recorded for [U2] before the one
    recorded for [U1]; more precisely it runs the bodies of the finalizers of
    the entries of [C], and only those, in the reverse of the order of
    attachment, each on the state the previous one has left, and the host
    ends with the own properties that the last of them has left. *)
Theorem mixinDestroys_reverse_order
    (C U1 U2 : class_id) (e1 e2 : applied) (m1 m2 m3 : list (class_id * applied))
    (w w' : world) (t t' : list (event Conf)) :
  mixinsApplied (host w) = Some (m1 ++ (U1, e1) :: m2 ++ (U2, e2) :: m3) ->
  classApplyingMixin e1 = C -> classApplyingMixin e2 = C ->
  mixinDestroys P C (w, t) = Ok (tt, (w', t')) ->
  t' = t ++ map destroyEvent (rev (List.filter (ownedBy C) m3))
         ++ Destroy U2 (destroyMethod e2)
         :: map destroyEvent (rev (List.filter (ownedBy C) m2))
         ++ Destroy U1 (destroyMethod e1)
         :: map destroyEvent (rev (List.filter (ownedBy C) m1)) /\
  exists w1,
    finalized P
      (rev (List.filter (ownedBy C) m3) ++ (U2, e2)
         :: rev (List.filter (ownedBy C) m2) ++ (U1, e1)
         :: rev (List.filter (ownedBy C) m1))
      (counted w) w1 /\
    own (host w') = own (host w1) /\ console w' = console w1.
Proof.
  intros Hm H1 H2 H.
  assert (rev (List.filter (ownedBy C) (m1 ++ (U1, e1) :: m2 ++ (U2, e2) :: m3))
          = rev (List.filter (ownedBy C) m3) ++ (U2, e2)
              :: rev (List.filter (ownedBy C) m2) ++ (U1, e1)
              :: rev (List.filter (ownedBy C) m1)) as Hsel.
  { rewrite List.filter_app. simpl.
    assert (ownedBy C (U1, e1) = true) as ->
      by (unfold ownedBy, classApplyingMixin_of; simpl; by apply Nat.eqb_eq).
    rewrite List.filter_app. simpl.
    assert (ownedBy C (U2, e2) = true) as ->
      by (unfold ownedBy, classApplyingMixin_of; simpl; by apply Nat.eqb_eq).
    rewrite rev_app_distr. simpl. rewrite rev_app_distr. simpl.
    repeat (rewrite <- List.app_assoc; simpl). reflexivity. }
  destruct (mixinDestroys_run C _ _ _ _ _ Hm H) as (w1 & Hrun & Hown & Hcons).
  rewrite Hsel in Hrun.
  split; [|by exists w1].
  rewrite mixinDestroys_unfold, Hm in H. simpl in H.
  destruct (forEach _ _ _) as [[[] [w1' t1]]|x] eqn:Hloop; [|discriminate].
  destruct (retire (host w1')) as [[[] o]|x]; [|discriminate].
  injection H as <- <-.
  apply destroy_trace in Hloop. subst t1. f_equal.
  rewrite Hsel, !map_app. simpl. by rewrite !map_app.
Qed.

End Teardown.

Section ScopedTeardown.

Context {Conf : Type} (P : program Conf).

Lemma filter_length_lt {A} (f : A -> bool) (l : list A) x :
  In x l -> f x = false -> length (List.filter f l) < length l.
Proof.
  induction l as [|y l IH]; simpl; [done|].
  intros [->|Hin] Hx.
  - rewrite Hx. pose proof (List.filter_length_le f l). lia.
  - specialize (IH Hin Hx). destruct (f y); simpl; lia.
Qed.

Lemma owned_selected C (m : list (class_id * applied)) e :
  In e (rev (List.filter (ownedBy C) m)) <-> In e m /\ ownedBy C e = true.
Proof. rewrite <- in_rev. apply List.filter_In. Qed.

(** The outcome of a teardown pass with quiet finalizers, from a state
    whose counter is a number or absent. *)
Lemma mixinDestroys_quiet C (m : list (class_id * applied)) k
    (w w' : world) (t t' : list (event Conf)) :
  mixinsApplied (host w) = Some m ->
  destroyedCount (host w) = Some k ->
  (forall e, In e m -> ownedBy C e = true -> quietFinalizer P e) ->
  mixinDestroys P C (w, t) = Ok (tt, (w', t')) ->
  let selected := rev (List.filter (ownedBy C) m) in
  let k' := (k + Z.of_nat (length selected))%Z in
  t' = t ++ map destroyEvent selected /\
  (if Z.eqb (Z.of_nat (length m)) k'
   then mixinsApplied (host w') = None /\ mixinsDestroyed (host w') = None
   else mixinsApplied (host w') = Some m /\ mixinsDestroyed (host w') = Some (Num k')) /\
  exists w1,
    forEach selected (destroyOne P)
      (match mixinsDestroyed (host w) with
       | Some _ => w
       | None => with_host w (with_mixinsDestroyed (host w) (Some (Num 0)))
       end, t) = Ok (tt, (w1, t')) /\
    own (host w') = own (host w1).
Proof.
  intros Hm Hk Hq H selected k'.
  rewrite mixinDestroys_unfold, Hm in H. simpl in H. fold selected in H.
  destruct (forEach _ _ _) as [[[] [w1 t1]]|x] eqn:Hloop; [|discriminate].
  destruct (retire (host w1)) as [[[] o]|x] eqn:Hret; [|discriminate].
  injection H as <- <-.
  pose proof (destroy_trace P _ _ _ _ _ Hloop) as Ht. split; [done|].
  assert (mixinsApplied (host w1) = Some m /\ mixinsDestroyed (host w1) = Some (Num k'))
    as [Hr Hc].
  { unfold destroyedCount in Hk.
    destruct (mixinsDestroyed (host w)) as [[z|]|] eqn:Hd; try discriminate.
    - injection Hk as ->.
      destruct (destroy_bookkeeping P selected _ _ _ _ k
                  (fun e He => Hq e (proj1 (proj1 (owned_selected C m e) He))
                                    (proj2 (proj1 (owned_selected C m e) He)))
                  Hd Hloop) as [-> ->].
      done.
    - injection Hk as <-.
      destruct (destroy_bookkeeping P selected
                  (with_host w (with_mixinsDestroyed (host w) (Some (Num 0)))) _ _ _ 0%Z
                  (fun e He => Hq e (proj1 (proj1 (owned_selected C m e) He))
                                    (proj2 (proj1 (owned_selected C m e) He)))
                  eq_refl Hloop) as [-> ->].
      done. }
  apply retire_Ok in Hret as (m' & Hm' & Hcase).
  assert (m' = m) as -> by congruence.
  rewrite Hc in Hcase. unfold sizeEquals, map_size in Hcase.
  split.
  - destruct Hcase as [[-> ->]|[-> ->]]; simpl; done.
  - exists w1. split; [done|]. destruct Hcase as [[_ ->]|[_ ->]]; done.
Qed.

(** With finalizers that return and leave the registry alone, the teardown
    completes. *)
Lemma mixinDestroys_completes C (m : list (class_id * applied))
    (w : world) (t : list (event Conf)) :
  mixinsApplied (host w) = Some m ->
  (forall e, In e m -> ownedBy C e = true ->
     totalFinalizer P e /\ keepsRegistry (call P (destroyMethod (snd e)) None)) ->
  exists s, mixinDestroys P C (w, t) = Ok (tt, s).
Proof.
  intros Hm Hq. rewrite mixinDestroys_unfold, Hm. simpl.
  set (w0 := match mixinsDestroyed (host w) with
             | Some _ => w
             | None => with_host w (with_mixinsDestroyed (host w) (Some (Num 0)))
             end).
  assert (mixinsApplied (host w0) = Some m) as Hm0.
  { unfold w0. by destruct (mixinsDestroyed (host w)). }
  assert (forall l w1 t1,
            (forall e, In e l -> In e m /\ ownedBy C e = true) ->
            mixinsApplied (host w1) = Some m ->
            exists w2 t2, forEach l (destroyOne P) (w1, t1) = Ok (tt, (w2, t2)) /\
                          mixinsApplied (host w2) = Some m) as Hloop.
  { induction l as [|e l IH]; intros w1 t1 Hl Hr; simpl.
    - by exists w1, t1.
    - destruct (Hl e (or_introl eq_refl)) as [He Ho].
      destruct (Hq e He Ho) as [Htotal Hkeep].
      destruct (Htotal w1) as (v & w1' & Hcall).
      unfold bind. rewrite destroyOne_unfold, Hcall.
      apply IH.
      + intros e' He'. apply Hl. by right.
      + simpl. by rewrite (Hkeep _ _ _ Hcall). }
  destruct (Hloop (rev (List.filter (ownedBy C) m)) w0 t) as (w2 & t2 & -> & Hr2);
    [intros e; apply owned_selected | done |].
  unfold retire. rewrite Hr2.
  destruct (sizeEquals _ _); eauto.
Qed.

(** C4, as the code has it.  Let [U2] be attached by [C2], and let the
    finalizers of the units attached by another class [C1] leave the
    bookkeeping and the members of [U2] alone; let the counter hold [k]
    finalizer calls so far.  Then [mixinDestroys(C1)] runs the finalizers of
    the entries of [C1] only, never the one of [U2], and the members of [U2]
    on the host are unchanged.  The registry is kept and [hasMixin(H, U2)] is
    still true exactly when the registry size differs from [k] plus the number
    of entries of [C1], which is so when no finalizer has been counted
    before; when they are equal the registry is deleted and [hasMixin(H, U2)]
    is false, although the finalizer of [U2] has not run. *)
Theorem mixinDestroys_scoped_to_owner
    (C1 C2 U2 : class_id) (e2 : applied) (m : list (class_id * applied)) (k : Z)
    (w w' : world) (t t' : list (event Conf)) :
  let selected := rev (List.filter (ownedBy C1) m) in
  let n := Z.of_nat (length selected) in
  mixinsApplied (host w) = Some m ->
  destroyedCount (host w) = Some k ->
  (0 <= k)%Z -> (k + n <= 2 ^ 53)%Z ->
  NoDup (map fst m) ->
  In (U2, e2) m -> classApplyingMixin e2 = C2 -> C1 <> C2 ->
  (forall e, In e m -> ownedBy C1 e = true ->
     quietFinalizer P e /\
     keepsProperties (getOwnPropertyNames P U2) (call P (destroyMethod (snd e)) None)) ->
  mixinDestroys P C1 (w, t) = Ok (tt, (w', t')) ->
  t' = t ++ map destroyEvent selected /\
  (exists w1, finalized P selected (counted w) w1 /\
              own (host w') = own (host w1) /\ console w' = console w1) /\
  (forall U f, In (Destroy U f : event Conf) (map destroyEvent selected) ->
     exists e, In (U, e) m /\ classApplyingMixin e = C1 /\ f = destroyMethod e) /\
  (forall f, ~ In (Destroy U2 f : event Conf) (map destroyEvent selected)) /\
  (forall x, x ∈ getOwnPropertyNames P U2 -> own (host w') !! x = own (host w) !! x) /\
  (Z.of_nat (length m) <> (k + n)%Z ->
     mixinsApplied (host w') = Some m /\
     mixinsDestroyed (host w') = Some (Num (k + n)) /\
     hasMixin (host w') U2 = true) /\
  (Z.of_nat (length m) = (k + n)%Z ->
     mixinsApplied (host w') = None /\ mixinsDestroyed (host w') = None /\
     hasMixin (host w') U2 = false) /\
  (k = 0%Z -> Z.of_nat (length m) <> (k + n)%Z).
Proof.
  intros selected n Hm Hk Hpos Hbound Hnodup Hin2 Hown2 Hne Hq H.
  destruct (mixinDestroys_quiet C1 m k w w' t t' Hm Hk
              (fun e He Ho => proj1 (Hq e He Ho)) H) as (Ht & Hcase & w1 & Hloop & Hown).
  fold selected in Ht, Hcase, Hloop. fold n in Hcase.
  assert (forall U f, In (Destroy U f : event Conf) (map destroyEvent selected) ->
            exists e, In (U, e) m /\ classApplyingMixin e = C1 /\ f = destroyMethod e) as Honly.
  { intros U f Hev. apply in_map_iff in Hev as ([U' e] & Heq & He).
    apply owned_selected in He as [He Ho]. injection Heq as <- <-.
    exists e. split; [done|]. split; [|done].
    unfold ownedBy, classApplyingMixin_of in Ho. simpl in Ho. by apply Nat.eqb_eq. }
  split; [done|]. split; [exact (mixinDestroys_run P C1 m w w' t t' Hm H)|].
  split; [done|]. split.
  { intros f Hev. apply Honly in Hev as (e & He & Ho & _).
    assert (e = e2) as ->.
    { clear -Hnodup He Hin2. induction m as [|[k v] m IH]; simpl in *; [done|].
      apply NoDup_cons in Hnodup as [Hk Hnd].
      destruct He as [He|He], Hin2 as [H2|H2].
      - congruence.
      - injection He as -> ->. exfalso. apply Hk.
        apply list_elem_of_In, in_map_iff. by exists (U2, e2).
      - injection H2 as -> ->. exfalso. apply Hk.
        apply list_elem_of_In, in_map_iff. by exists (U2, e).
      - by apply IH. }
    congruence. }
  split.
  { intros x Hx. rewrite Hown.
    rewrite (destroy_properties P (getOwnPropertyNames P U2) _ _ _ _ _
               (fun e He => proj2 (Hq e (proj1 (proj1 (owned_selected C1 m e) He))
                                        (proj2 (proj1 (owned_selected C1 m e) He))))
               Hloop x Hx).
    by destruct (mixinsDestroyed (host w)). }
  split.
  { intros Hsize. apply Z.eqb_neq in Hsize. rewrite Hsize in Hcase.
    destruct Hcase as [Hr Hc]. split; [done|]. split; [done|].
    unfold hasMixin. rewrite Hr. apply map_has_In, in_map_iff. by exists (U2, e2). }
  split.
  { intros Hsize. apply Z.eqb_eq in Hsize. rewrite Hsize in Hcase.
    destruct Hcase as [Hr Hc]. split; [done|]. split; [done|].
    unfold hasMixin. by rewrite Hr. }
  intros ->. unfold n, selected. rewrite length_rev.
  assert (length (List.filter (ownedBy C1) m) < length m); [|lia].
  apply (filter_length_lt _ _ (U2, e2)); [done|].
  unfold ownedBy, classApplyingMixin_of. simpl. apply Nat.eqb_neq. congruence.
Qed.

End ScopedTeardown.

Section RepeatedTeardown.

Context {Conf : Type} (P : program Conf).

Lemma with_host_same (w : world) : with_host w (host w) = w.
Proof. by destruct w. Qed.

(** C5, as the code has it.  With quiet finalizers, a second
    [mixinDestroys(C)] after a first one that kept the registry selects the
    same entries again (none was removed) and runs their finalizers again,
    in the same order; the counter grows by their number each time, and the
    second call deletes registry and counter exactly when the counter then
    equals the registry size.  The second call changes nothing only when [C]
    owns no entry. *)
Theorem repeated_mixinDestroys_repeats_finalizers
    (C : class_id) (m : list (class_id * applied)) (k0 : Z)
    (w0 w1 w2 : world) (t0 t1 t2 : list (event Conf)) :
  let selected := rev (List.filter (ownedBy C) m) in
  let n := Z.of_nat (length selected) in
  mixinsApplied (host w0) = Some m ->
  destroyedCount (host w0) = Some k0 ->
  (0 <= k0)%Z -> (k0 + n + n <= 2 ^ 53)%Z ->
  (forall e, In e m -> ownedBy C e = true -> quietFinalizer P e) ->
  mixinDestroys P C (w0, t0) = Ok (tt, (w1, t1)) ->
  is_Some (mixinsApplied (host w1)) ->
  mixinDestroys P C (w1, t1) = Ok (tt, (w2, t2)) ->
  t1 = t0 ++ map destroyEvent selected /\
  t2 = t1 ++ map destroyEvent selected /\
  (exists w1' w2',
     finalized P selected (counted w0) w1' /\ own (host w1) = own (host w1') /\
     finalized P selected w1 w2' /\ own (host w2) = own (host w2')) /\
  mixinsApplied (host w1) = Some m /\
  mixinsDestroyed (host w1) = Some (Num (k0 + n)) /\
  ((Z.of_nat (length m) <> (k0 + n + n)%Z /\
    mixinsApplied (host w2) = Some m /\ mixinsDestroyed (host w2) = Some (Num (k0 + n + n)))
   \/ (Z.of_nat (length m) = (k0 + n + n)%Z /\
       mixinsApplied (host w2) = None /\ mixinsDestroyed (host w2) = None)) /\
  (selected = [] -> t2 = t1 /\ w2 = w1).
Proof.
  intros selected n Hm Hk Hpos Hbound Hq H1 Hkept H2.
  destruct (mixinDestroys_quiet P C m k0 w0 w1 t0 t1 Hm Hk Hq H1) as (Ht1 & Hcase1 & _).
  fold selected in Ht1, Hcase1. fold n in Hcase1.
  destruct (Z.eqb (Z.of_nat (length m)) (k0 + n)) eqn:Hsize1.
  { destruct Hcase1 as [Hnone _]. rewrite Hnone in Hkept. by destruct Hkept. }
  destruct Hcase1 as [Hr1 Hc1].
  assert (destroyedCount (host w1) = Some (k0 + n)%Z) as Hk1.
  { unfold destroyedCount. by rewrite Hc1. }
  destruct (mixinDestroys_quiet P C m _ w1 w2 t1 t2 Hr1 Hk1 Hq H2) as (Ht2 & Hcase2 & _).
  fold selected in Ht2, Hcase2. fold n in Hcase2.
  split; [done|]. split; [done|]. split.
  { destruct (mixinDestroys_run P C m w0 w1 t0 t1 Hm H1) as (w1' & Hrun1 & Hown1 & _).
    destruct (mixinDestroys_run P C m w1 w2 t1 t2 Hr1 H2) as (w2' & Hrun2 & Hown2 & _).
    exists w1', w2'. split; [done|]. split; [done|]. split; [|done].
    unfold counted in Hrun2. by rewrite Hc1 in Hrun2. }
  split; [done|]. split; [done|]. split.
  - destruct (Z.eqb (Z.of_nat (length m)) (k0 + n + n)) eqn:Hsize2.
    + right. apply Z.eqb_eq in Hsize2. by destruct Hcase2.
    + left. apply Z.eqb_neq in Hsize2. by destruct Hcase2.
  - intros Hnil. rewrite Hnil in Ht2. simpl in Ht2. rewrite app_nil_r in Ht2.
    split; [done|].
    rewrite mixinDestroys_unfold, Hr1, Hc1 in H2. simpl in H2.
    fold selected in H2. rewrite Hnil in H2. simpl in H2.
    unfold retire in H2. rewrite Hr1, Hc1 in H2. simpl in H2.
    unfold map_size in H2. rewrite Hsize1 in H2.
    rewrite with_host_same in H2. congruence.
Qed.

End RepeatedTeardown.

Section Lifecycle.

Context {Conf : Type} (P : program Conf).
Hypothesis quiet : quietProgram P.

Lemma call_quiet f arg : keepsRegistry (call P f arg) /\ keepsCounter (call P f arg).
Proof.
  destruct f; try (split; intros w a w' H; discriminate).
  apply quiet.
Qed.

Lemma initOne_bookkeeping C u (w w' : world) (t t' : list (event Conf)) :
  is_Some (mixinsApplied (host w)) ->
  initOne P C u (w, t) = Ok (tt, (w', t')) ->
  is_Some (mixinsApplied (host w')) /\
  mixinsDestroyed (host w') = mixinsDestroyed (host w).
Proof.
  intros Hreg H.
  destruct (hasMixin (host w) (mixinOf u)) eqn:Hhas.
  - rewrite (initOne_attached P C u w t Hhas) in H.
    destruct (multiMixinOf w u).
    + destruct (call P _ _ w) as [[v w1]|e] eqn:Hcall; [|discriminate].
      injection H as <- <-.
      destruct (call_quiet (get P (host w) (name P (mixinOf u))) (confOf u)) as [Hr Hc].
      rewrite (Hr _ _ _ Hcall), (Hc _ _ _ Hcall). done.
    + by injection H as <- <-.
  - apply initOne_first_Ok in H as (o1 & v & w2 & m & Happly & Hcall & Hm & _ & -> & _);
      [|done].
    destruct (call_quiet (get P o1 (name P (mixinOf u))) (confOf u)) as [Hr Hc].
    pose proof (Hc _ _ _ Hcall) as Hc'. simpl in Hc'.
    pose proof (applyMixin_fields P _ _ _ Happly) as (_ & _ & _ & Hd).
    simpl. split; [eauto|]. congruence.
Qed.

Lemma forEach_initOne_bookkeeping C l (w w' : world) (t t' : list (event Conf)) :
  is_Some (mixinsApplied (host w)) ->
  forEach l (initOne P C) (w, t) = Ok (tt, (w', t')) ->
  is_Some (mixinsApplied (host w')) /\
  mixinsDestroyed (host w') = mixinsDestroyed (host w).
Proof.
  revert w t. induction l as [|u l IH]; intros w t Hreg H; simpl in H.
  - by injection H as <- <-.
  - apply bind_Ok in H as ([] & [w1 t1] & H1 & H).
    apply initOne_bookkeeping in H1 as [Hr1 Hc1]; [|done].
    apply IH in H as [Hr Hc]; [|done]. split; [done|]. congruence.
Qed.

Lemma mixinInits_bookkeeping C l (w w' : world) (t t' : list (event Conf)) :
  mixinInits P C l (w, t) = Ok (tt, (w', t')) ->
  is_Some (mixinsApplied (host w')) /\
  mixinsDestroyed (host w') = mixinsDestroyed (host w).
Proof.
  intros H. rewrite mixinInits_unfold in H.
  destruct (mixinsApplied (host w)) as [m|] eqn:Hm.
  - apply forEach_initOne_bookkeeping in H; [done|]. rewrite Hm. eauto.
  - destruct (applyMixin P Mixin (host w)) as [[[] o1]|e] eqn:Happly; [|discriminate].
    apply forEach_initOne_bookkeeping in H as [Hr Hc]; [|simpl; eauto].
    split; [done|]. rewrite Hc. simpl.
    by apply applyMixin_fields in Happly as (_ & _ & _ & ->).
Qed.

Lemma mixinDestroys_step C (w w' : world) (t t' : list (event Conf)) k :
  destroyedCount (host w) = Some k ->
  mixinDestroys P C (w, t) = Ok (tt, (w', t')) ->
  match mixinsApplied (host w) with
  | None => (w', t') = (w, t)
  | Some m =>
      let k' := (k + Z.of_nat (length (List.filter (ownedBy C) m)))%Z in
      if Z.eqb (Z.of_nat (length m)) k'
      then mixinsApplied (host w') = None /\ mixinsDestroyed (host w') = None
      else mixinsApplied (host w') = Some m /\ mixinsDestroyed (host w') = Some (Num k')
  end.
Proof.
  intros Hk H.
  destruct (mixinsApplied (host w)) as [m|] eqn:Hm.
  - destruct (mixinDestroys_quiet P C m k w w' t t' Hm Hk) as (_ & Hcase & _); [|done|].
    + intros e _ _. apply call_quiet.
    + by rewrite length_rev in Hcase.
  - rewrite mixinDestroys_unfold, Hm in H. congruence.
Qed.

(** The invariant of the two bookkeeping fields. *)
Lemma reachable_invariant s :
  reachable P s ->
  (is_Some (mixinsDestroyed (host (fst s))) -> is_Some (mixinsApplied (host (fst s)))) /\
  is_Some (destroyedCount (host (fst s))).
Proof.
  induction 1 as [w Hr Hc|[w t] [w' t'] c Hreach [IH1 [k IH2]] Hstep]; simpl in *.
  - unfold destroyedCount. rewrite Hc. split; [by intros [? ?]|eauto].
  - destruct c as [C l|C|n arg]; simpl in Hstep.
    + apply mixinInits_bookkeeping in Hstep as [Hr Hc]. split; [done|].
      unfold destroyedCount in *. rewrite Hc. eauto.
    + pose proof (mixinDestroys_step C w w' t t' k IH2 Hstep) as Hcase.
      destruct (mixinsApplied (host w)) as [m|] eqn:Hm.
      * simpl in Hcase. unfold destroyedCount.
        destruct (Z.eqb _ _); destruct Hcase as [-> ->]; split; eauto.
        by intros [? ?].
      * injection Hcase as -> ->. rewrite Hm. split; [done|eauto].
    + apply onWorld_Ok in Hstep as (w1 & Hstep & Heq). injection Heq as <- <-.
      simpl in Hstep.
      apply bind_Ok in Hstep as (f & w2 & Hf & Hstep). injection Hf as <- <-.
      apply bind_Ok in Hstep as (v & w2 & Hcall & Hret). injection Hret as <-.
      destruct (call_quiet (get P (host w) n) arg) as [Hr Hc].
      unfold destroyedCount. rewrite (Hr _ _ _ Hcall), (Hc _ _ _ Hcall). eauto.
Qed.

End Lifecycle.

Section LifecycleTheorem.

Context {Conf : Type} (P : program Conf).

(** C6, as the code has it.  For a program whose methods leave the two
    bookkeeping fields alone, in every state reachable from a newly
    allocated host: the counter exists only if the registry does; a
    completed [mixinInits] leaves a registry behind, creating it if need be,
    and never creates or changes the counter, which appears only in
    [mixinDestroys]; and a completed [mixinDestroys] deletes registry and
    counter exactly when the counter, after adding the entries of the given
    class, equals the registry size, and otherwise keeps the registry as it
    was. *)
Theorem bookkeeping_lifecycle (s : traced Conf) :
  quietProgram P ->
  reachable P s ->
  (is_Some (mixinsDestroyed (host (fst s))) -> is_Some (mixinsApplied (host (fst s)))) /\
  (forall C l s', mixinInits P C l s = Ok (tt, s') ->
     is_Some (mixinsApplied (host (fst s'))) /\
     mixinsDestroyed (host (fst s')) = mixinsDestroyed (host (fst s))) /\
  (forall C s', mixinDestroys P C s = Ok (tt, s') ->
     match mixinsApplied (host (fst s)) with
     | None => s' = s
     | Some m =>
         exists k, destroyedCount (host (fst s)) = Some k /\
           let k' := (k + Z.of_nat (length (List.filter (ownedBy C) m)))%Z in
           (Z.of_nat (length m) = k' /\
            mixinsApplied (host (fst s')) = None /\ mixinsDestroyed (host (fst s')) = None)
           \/
           (Z.of_nat (length m) <> k' /\
            mixinsApplied (host (fst s')) = Some m /\
            mixinsDestroyed (host (fst s')) = Some (Num k'))
     end).
Proof.
  intros quiet Hreach.
  destruct (reachable_invariant P quiet s Hreach) as [Hinv [k Hk]].
  destruct s as [w t]. simpl in *.
  split; [done|]. split.
  - intros C l [w' t'] H. by apply (mixinInits_bookkeeping P quiet) in H.
  - intros C [w' t'] H.
    pose proof (mixinDestroys_step P quiet C w w' t t' k Hk H) as Hcase.
    destruct (mixinsApplied (host w)) as [m|]; [|done].
    exists k. split; [done|]. simpl in Hcase |- *.
    destruct (Z.eqb _ _) eqn:E.
    + left. apply Z.eqb_eq in E. by destruct Hcase.
    + right. apply Z.eqb_neq in E. by destruct Hcase.
Qed.

Lemma meetsRequirement_test (o : object) (T : class_id) :
  instanceOf o T || hasMixin o T = true <-> meetsRequirement o T.
Proof.
  unfold meetsRequirement, instanceOf, hasMixin. rewrite orb_true_iff. split.
  - intros [H|H].
    + left. apply existsb_exists in H as (x & Hin & Heq).
      apply Nat.eqb_eq in Heq. by subst.
    + right. destruct (mixinsApplied o) as [m|]; [|discriminate].
      exists m. split; [done|]. by apply map_has_In.
  - intros [H|(m & -> & H)].
    + left. apply existsb_exists. exists T. split; [done | apply Nat.eqb_refl].
    + right. by apply map_has_In.
Qed.

(** C7, as the code has it.  [notApplicable] returns [false], and does
    nothing else, on every host that is an instance of the required class or
    has it in its registry.  On every other host it reads the name of the
    host's [constructor]: when that is a class [c] it writes one line to the
    error console that names [c], the required class and the unit, and returns
    [true]; when the host has no [constructor] it throws a [TypeError].  So
    whenever it returns, it returns [false] exactly on the hosts that meet the
    requirement. *)
Theorem notApplicable_checks_instance_or_mixin (U T : class_id) (w : world) :
  (meetsRequirement (host w) T -> notApplicable P U T w = Ok (false, w)) /\
  (~ meetsRequirement (host w) T ->
     (forall c, get P (host w) "constructor" = VClass c ->
        notApplicable P U T w
        = Ok (true, with_console w
                (console w ++
                   [ConsoleError (name P c +:+ " is not an instance of " +:+ name P T +:+
                                  " and can not use mixin " +:+ name P U +:+
                                  ". Correct this fault as it can lead to unpredictable behaviour.")]))) /\
     (get P (host w) "constructor" = VUndefined ->
        notApplicable P U T w
        = Throw (TypeError "Cannot read properties of undefined (reading 'name')"))) /\
  (forall failed w', notApplicable P U T w = Ok (failed, w') ->
     (failed = false <-> meetsRequirement (host w) T)).
Proof.
  pose proof (meetsRequirement_test (host w) T) as Htest.
  unfold notApplicable.
  destruct (instanceOf (host w) T) eqn:Hinst, (hasMixin (host w) T) eqn:Hhas; simpl in *.
  1-3: split; [done|]; split; [intros Hnot; destruct Hnot; by apply Htest|];
       intros failed w' [= <- <-]; split; [intros _; by apply Htest | done].
  split; [intros Hmeets; apply Htest in Hmeets; discriminate|].
  split.
  - intros _. split.
    + intros c ->. reflexivity.
    + intros ->. reflexivity.
  - intros failed w' H.
    destruct (nameOfValue P _); [|discriminate]. injection H as <- <-.
    split; [discriminate|]. intros Hmeets. apply Htest in Hmeets. discriminate.
Qed.

End LifecycleTheorem.

Section FailedConstraint.

Context {Conf : Type} (P : program Conf).

Lemma applyMixin_installable c c' o o1 :
  applyMixin P c o = Ok (tt, o1) -> installable P c' o -> installable P c' o1.
Proof.
  intros H Hi n cur Hn Hcur.
  apply applyMixin_Ok in H as (_ & _ & Hctor & Hrest).
  destruct (decide (n = "constructor")) as [->|Hne].
  - rewrite Hctor in Hcur. injection Hcur as <-. done.
  - rewrite Hrest in Hcur by done.
    destruct (decide (n ∈ getOwnPropertyNames P c)).
    + by eapply descriptor_configurable.
    + by eapply Hi.
Qed.

Lemma applyMixin_instanceOf c o o1 T :
  applyMixin P c o = Ok (tt, o1) -> instanceOf o1 T = instanceOf o T.
Proof.
  intros H. apply applyMixin_fields in H as (H1 & H2 & _).
  unfold instanceOf. by rewrite H1, H2.
Qed.

Lemma applyMixin_hasMixin c o o1 T :
  applyMixin P c o = Ok (tt, o1) -> hasMixin o1 T = hasMixin o T.
Proof.
  intros H. apply applyMixin_fields in H as (_ & _ & H & _).
  unfold hasMixin. by rewrite H.
Qed.



End FailedConstraint.

(** ** The example program *)

Section Preservation.

(** Closure properties, for a preorder [R]. *)
Context (R : world -> world -> Prop).
Hypothesis R_refl : forall w, R w w.
Hypothesis R_trans : forall w1 w2 w3, R w1 w2 -> R w2 w3 -> R w1 w3.

Lemma respects_ret {A} (a : A) : respects R (ret a).
Proof. intros w a' w' [= <- <-]. apply R_refl. Qed.

Lemma respects_throw {A} e : respects R (@throw world A e).
Proof. intros w a w' H. discriminate. Qed.

Lemma respects_gets {A} (f : world -> A) : respects R (gets f).
Proof. intros w a w' [= <- <-]. apply R_refl. Qed.

Lemma respects_bind {A B} (m : M world A) (k : A -> M world B) :
  respects R m -> (forall a, respects R (k a)) -> respects R (bind m k).
Proof.
  intros Hm Hk w b w' H. apply bind_Ok in H as (a & w1 & H1 & H2).
  eapply R_trans; [by eapply Hm | by eapply Hk].
Qed.

End Preservation.

Lemma sameBookkeeping_refl w : sameBookkeeping w w.
Proof. by split. Qed.

Lemma sameBookkeeping_trans w1 w2 w3 :
  sameBookkeeping w1 w2 -> sameBookkeeping w2 w3 -> sameBookkeeping w1 w3.
Proof. intros [A B] [C D]. split; congruence. Qed.

Lemma sameProperties_refl names w : sameProperties names w w.
Proof. by intros n Hn. Qed.

Lemma sameProperties_trans names w1 w2 w3 :
  sameProperties names w1 w2 -> sameProperties names w2 w3 -> sameProperties names w1 w3.
Proof. intros A B n Hn. rewrite (B n Hn). by apply A. Qed.

Lemma setProperty_Ok n v o o' :
  setProperty n v o = Ok (tt, o') ->
  exists d, o' = with_own o (<[n := d]> (own o)) /\ dvalue d = v.
Proof.
  unfold setProperty. destruct (own o !! n) as [cur|].
  - destruct (writable cur); [|discriminate]. intros [= <-]. eauto.
  - intros [= <-]. eauto.
Qed.

Lemma deleteProperty_Ok n o o' :
  deleteProperty n o = Ok (tt, o') -> o' = with_own o (delete n (own o)).
Proof.
  unfold deleteProperty. destruct (own o !! n) as [cur|] eqn:E.
  - destruct (configurable cur); [|discriminate]. by intros [= <-].
  - intros [= <-]. destruct o; unfold with_own; simpl in *. f_equal.
    symmetry. by apply delete_id.
Qed.

Lemma setProperty_bookkeeping n v : respects sameBookkeeping (onHost (setProperty n v)).
Proof.
  intros w [] w' H. apply onHost_Ok in H as (o & H & ->).
  apply setProperty_Ok in H as (d & -> & _). by split.
Qed.

Lemma deleteProperty_bookkeeping n : respects sameBookkeeping (onHost (deleteProperty n)).
Proof.
  intros w [] w' H. apply onHost_Ok in H as (o & H & ->).
  apply deleteProperty_Ok in H as ->. by split.
Qed.

Lemma setProperty_properties names n v :
  n ∉ names -> respects (sameProperties names) (onHost (setProperty n v)).
Proof.
  intros Hn w [] w' H. apply onHost_Ok in H as (o & H & ->).
  apply setProperty_Ok in H as (d & -> & _). intros n' Hn'. simpl.
  apply lookup_insert_ne. congruence.
Qed.

Lemma deleteProperty_properties names n :
  n ∉ names -> respects (sameProperties names) (onHost (deleteProperty n)).
Proof.
  intros Hn w [] w' H. apply onHost_Ok in H as (o & H & ->).
  apply deleteProperty_Ok in H as ->. intros n' Hn'. simpl.
  apply lookup_delete_ne. congruence.
Qed.

Lemma notApplicable_bookkeeping {Conf} (P : program Conf) U T :
  respects sameBookkeeping (notApplicable P U T).
Proof.
  intros w b w' H. unfold notApplicable in H.
  destruct (_ && _).
  - destruct (nameOfValue P _); [|discriminate]. injection H as <- <-. by split.
  - injection H as <- <-. by split.
Qed.

Lemma respects_keeps {A} (m : M world A) :
  respects sameBookkeeping m <-> keepsRegistry m /\ keepsCounter m.
Proof.
  split.
  - intros H. split; intros w a w' Hm; by destruct (H w a w' Hm).
  - intros [H1 H2] w a w' Hm. split; [by eapply H1 | by eapply H2].
Qed.

Module ExampleFacts.
Import Example.

Lemma call_respects (P : program MixinStringConf) f arg :
  (forall c m conf, respects sameBookkeeping (body P c m conf)) -> respects sameBookkeeping (call P f arg).
Proof.
  intros H. destruct f; try apply respects_throw. apply H.
Qed.

Lemma send_respects (P : program MixinStringConf) n arg :
  (forall c m conf, respects sameBookkeeping (body P c m conf)) -> respects sameBookkeeping (send P n arg).
Proof.
  intros H. apply respects_bind;
    [apply sameBookkeeping_trans | apply respects_gets, sameBookkeeping_refl |].
  intros f. by apply call_respects.
Qed.

Ltac quiet_step :=
  first
    [ apply respects_ret, sameBookkeeping_refl
    | apply respects_throw
    | apply respects_gets, sameBookkeeping_refl
    | apply setProperty_bookkeeping
    | apply deleteProperty_bookkeeping
    | apply notApplicable_bookkeeping
    | apply respects_bind; [apply sameBookkeeping_trans | | intros ?] ].

Lemma methodTable_quiet (P : program MixinStringConf) :
  (forall c m conf, respects sameBookkeeping (body P c m conf)) ->
  forall c m b conf, In (c, m, b) (methodTable P) -> respects sameBookkeeping (b conf).
Proof.
  intros HP c m b conf Hin. unfold methodTable in Hin. simpl in Hin.
  repeat (destruct Hin as [[= <- <- <-]|Hin]); try done.
  - unfold MixinNumber_init. repeat quiet_step.
  - unfold MixinNumberDestroy. repeat quiet_step.
  - unfold getNumber. repeat quiet_step.
  - unfold MixinString_init. quiet_step; [quiet_step|].
    destruct a; [quiet_step|]. destruct conf; repeat quiet_step.
  - unfold MixinStringDestroy. repeat quiet_step.
  - unfold getString. repeat quiet_step.
  - unfold joinWithNumber. quiet_step; [by apply send_respects|].
    quiet_step; [by apply send_respects|].
    destruct (add a a0); repeat quiet_step.
Qed.

Lemma findMethod_In {B} (table : list (class_id * string * B)) c m b :
  findMethod table c m = Some b -> exists c' m', In (c', m', b) table.
Proof.
  induction table as [|[[c' m'] b'] table IH]; simpl; [done|].
  destruct (_ && _).
  - intros [= ->]. eauto.
  - intros H. destruct (IH H) as (c1 & m1 & Hin). eauto.
Qed.

Lemma methodBody_S fuel c m conf :
  methodBody (S fuel) c m conf =
  match findMethod (methodTable (Program MixinStringConf className classMethods (methodBody fuel))) c m with
  | Some b => b conf
  | None => throw (Unmodelled "no such method")
  end.
Proof. reflexivity. Qed.

Lemma methodBody_quiet fuel c m conf : respects sameBookkeeping (methodBody fuel c m conf).
Proof.
  revert c m conf. induction fuel as [|fuel IH]; intros c m conf.
  - apply respects_throw.
  - rewrite methodBody_S.
    destruct (findMethod _ c m) as [b|] eqn:Hfind; [|apply respects_throw].
    apply findMethod_In in Hfind as (c' & m' & Hin).
    eapply methodTable_quiet; [|exact Hin]. exact IH.
Qed.

Lemma exampleProgram_quiet : quietProgram exampleProgram.
Proof.
  intros c m conf. apply respects_keeps. apply methodBody_quiet.
Qed.

End ExampleFacts.

Module ExampleRuns.
Import Example ExampleFacts.

Ltac evaluate := vm_compute; reflexivity.

(** C9.  [new Combinator()] completes; on the instance [getString()]
    returns ["Fave nr is: "], and after [joinWithNumber()] it returns
    ["Fave nr is: 1"]. *)
Theorem combinator_scenario :
  exists w t w1 w2 w3,
    Combinator_constructor allocated = Ok (tt, (w, t)) /\
    send exampleProgram "getString" None w = Ok (VString "Fave nr is: ", w1) /\
    send exampleProgram "joinWithNumber" None w1 = Ok (VUndefined, w2) /\
    send exampleProgram "getString" None w2 = Ok (VString "Fave nr is: 1", w3) /\
    t = [Init MixinNumber (VFun MixinNumber "MixinNumber") None;
         Init MixinString (VFun MixinString "MixinString")
           (Some {| defaultValue := Some "Fave nr is: " |})] /\
    console w3 = [ConsoleLog "BaseClass is here!"].
Proof.
  eexists _, _, _, _, _.
  split; [evaluate|]. split; [evaluate|]. split; [evaluate|]. split; [evaluate|].
  split; evaluate.
Qed.

Lemma name_MixinNumber : name exampleProgram MixinNumber = "MixinNumber".
Proof. reflexivity. Qed.

Lemma name_MixinString : name exampleProgram MixinString = "MixinString".
Proof. reflexivity. Qed.

Lemma body_MixinNumber conf :
  body exampleProgram MixinNumber "MixinNumber" conf = MixinNumber_init.
Proof. reflexivity. Qed.

Lemma body_MixinNumberDestroy conf :
  body exampleProgram MixinNumber "MixinNumberDestroy" conf = MixinNumberDestroy.
Proof. reflexivity. Qed.

Lemma body_MixinString conf :
  body exampleProgram MixinString "MixinString" conf =
  MixinString_init (Program MixinStringConf className classMethods (methodBody 63)) conf.
Proof. reflexivity. Qed.

Lemma not_elem_of_literal (n : string) (l : list string) :
  forallb (fun x => negb (String.eqb n x)) l = true -> n ∉ l.
Proof.
  intros H Hin. apply list_elem_of_In in Hin.
  rewrite forallb_forall in H. specialize (H n Hin).
  by rewrite String.eqb_refl in H.
Qed.

Lemma MixinNumber_init_keeps_members conf :
  keepsProperties (getOwnPropertyNames exampleProgram MixinNumber)
    (body exampleProgram MixinNumber (name exampleProgram MixinNumber) conf).
Proof.
  rewrite name_MixinNumber, body_MixinNumber. unfold MixinNumber_init.
  intros w a w' H. apply bind_Ok in H as ([] & w1 & H & Hret).
  injection Hret as _ <-.
  revert H. apply (setProperty_properties _ "myNumber").
  by apply not_elem_of_literal.
Qed.

Lemma MixinNumberDestroy_keeps_MixinString_members :
  keepsProperties (getOwnPropertyNames exampleProgram MixinString)
    (call exampleProgram (VFun MixinNumber "MixinNumberDestroy") None).
Proof.
  change (call exampleProgram (VFun MixinNumber "MixinNumberDestroy") None)
    with (body exampleProgram MixinNumber "MixinNumberDestroy" None).
  rewrite body_MixinNumberDestroy. unfold MixinNumberDestroy.
  intros w a w' H. apply bind_Ok in H as ([] & w1 & H & Hret).
  injection Hret as _ <-.
  revert H. apply (deleteProperty_properties _ "myNumber").
  by apply not_elem_of_literal.
Qed.

Lemma exampleProgram_quietFinalizer e : quietFinalizer exampleProgram e.
Proof. apply (call_quiet exampleProgram exampleProgram_quiet). Qed.

Lemma notApplicable_body_irrelevant {Conf} n ms (b b' : class_id -> string -> option Conf -> M world value) U T :
  notApplicable (Program Conf n ms b) U T = notApplicable (Program Conf n ms b') U T.
Proof. reflexivity. Qed.

Lemma MixinString_returns_early conf w0 w1 :
  notApplicable exampleProgram MixinString MixinNumber w0 = Ok (true, w1) ->
  body exampleProgram MixinString (name exampleProgram MixinString) conf w0
    = Ok (VUndefined, w1).
Proof.
  intros H. rewrite name_MixinString, body_MixinString.
  unfold exampleProgram in H.
  unfold MixinString_init, bind.
  rewrite (notApplicable_body_irrelevant className classMethods
             (methodBody 63) (methodBody stackDepth)).
  by rewrite H.
Qed.

Lemma allocated_installable c : installable exampleProgram c (host (fst allocated)).
Proof. intros n cur _ H. simpl in H. by rewrite lookup_empty in H. Qed.

Lemma reachable_twoOwners : reachable exampleProgram twoOwners.
Proof.
  apply (reachable_call exampleProgram baseComposed twoOwners
           (CallMixinInits Combinator [MixinStringArg])); [|evaluate].
  apply (reachable_call exampleProgram allocated baseComposed
           (CallMixinInits BaseClass [Bare MixinNumber])); [|evaluate].
  by apply (reachable_new exampleProgram (fst allocated)).
Qed.

(** ** The theorems at the example *)

(** C1 at the example: [mixinInits(this, Combinator, MixinNumber)] on a new
    [Combinator]; the one run of [MixinNumber()] has set [myNumber]. *)
Lemma mixinInits_attaches_and_initializes_once_witness :
  hasMixin (host (fst allocated)) MixinNumber = false /\
  mixinInits exampleProgram Combinator [Bare MixinNumber] allocated = Ok (tt, numberOnce) /\
  hasMixin (host (fst numberOnce)) MixinNumber = true /\
  initializations MixinNumber (snd numberOnce) = 1 /\
  (exists w1 v w2,
     body exampleProgram MixinNumber "MixinNumber" None w1 = Ok (v, w2) /\
     own (host (fst numberOnce)) = own (host w2)) /\
  own (host (fst allocated)) !! "myNumber" = None /\
  own (host (fst numberOnce)) !! "myNumber"
    = Some (Descriptor (VNumber (Num 1)) true true true).
Proof.
  split; [reflexivity|]. split; [evaluate|].
  destruct (mixinInits_attaches_and_initializes_once exampleProgram Combinator
              (Bare MixinNumber) (fst allocated) (fst numberOnce)
              (snd allocated) (snd numberOnce) eq_refl ltac:(evaluate))
    as (H1 & H2 & c & n & w0 & o1 & v & w2 & m & _ & _ & _ & Hdecl & Hbody & _ & Hw' & _).
  split; [exact H1|]. split; [exact H2|]. split.
  { destruct (Hdecl ltac:(vm_compute; repeat constructor) ltac:(discriminate)) as [Hc Hn].
    rewrite Hc, Hn in Hbody.
    exists (with_host w0 o1), v, w2. split; [exact Hbody|].
    exact (f_equal (fun x => own (host x)) Hw'). }
  split; evaluate.
Defined.

(** C2 at the example: the same call a second time, with
    [MixinNumber.multiMixin] unset and with [MixinNumber.multiMixin] set. *)
Lemma repeated_mixinInits_follows_multiMixin_witness :
  (mixinInits exampleProgram Combinator [Bare MixinNumber] allocated = Ok (tt, numberOnce) /\
   mixinInits exampleProgram Combinator [Bare MixinNumber] numberOnce = Ok (tt, numberTwice) /\
   ~ policyOn (fst numberOnce) (Bare MixinNumber : mixinArg MixinStringConf) /\
   snd numberTwice = snd numberOnce /\ fst numberTwice = fst numberOnce /\
   initializations MixinNumber (snd numberTwice) = 1 /\
   hasMixin (host (fst numberTwice)) MixinNumber = true) /\
  (mixinInits exampleProgram Combinator [Bare MixinNumber] allocatedMulti = Ok (tt, multiOnce) /\
   mixinInits exampleProgram Combinator [Bare MixinNumber] multiOnce = Ok (tt, multiTwice) /\
   policyOn (fst multiOnce) (Bare MixinNumber : mixinArg MixinStringConf) /\
   snd multiTwice
     = snd multiOnce ++ [Init MixinNumber (VFun MixinNumber "MixinNumber") None] /\
   initializations MixinNumber (snd multiTwice) = 2 /\
   (exists v, body exampleProgram MixinNumber "MixinNumber" None (fst multiOnce)
              = Ok (v, fst multiTwice)) /\
   hasMixin (host (fst multiTwice)) MixinNumber = true /\
   exists m, mixinsApplied (host (fst multiTwice)) = Some m /\
             length (List.filter (isKey MixinNumber) m) = 1).
Proof.
  assert (name exampleProgram MixinNumber ∈ methodNames exampleProgram MixinNumber) as Hdecl
    by (vm_compute; repeat constructor).
  split.
  - split; [evaluate|]. split; [evaluate|].
    assert (~ policyOn (fst numberOnce) (Bare MixinNumber : mixinArg MixinStringConf)) as Hoff.
    { assert (multiMixin (fst numberOnce) = []) as E by evaluate.
      unfold policyOn. rewrite E. intros [[]|(mixin & conf & Heq)]. discriminate Heq. }
    split; [exact Hoff|].
    destruct (repeated_mixinInits_follows_multiMixin exampleProgram Combinator
                (Bare MixinNumber) (fst allocated) (fst numberOnce) (fst numberTwice)
                (snd allocated) (snd numberOnce) (snd numberTwice)
                Hdecl ltac:(discriminate)
                (fun conf => proj1 (exampleProgram_quiet _ _ conf))
                MixinNumber_init_keeps_members
                eq_refl ltac:(evaluate) ltac:(evaluate))
      as (_ & _ & Hpolicy & _ & _ & Hhas & _).
    destruct (Hpolicy Hoff) as (A & B & C).
    split; [exact A|]. split; [exact B|]. split; [exact C | exact Hhas].
  - split; [evaluate|]. split; [evaluate|].
    assert (policyOn (fst multiOnce) (Bare MixinNumber : mixinArg MixinStringConf)) as Hon.
    { assert (multiMixin (fst multiOnce) = [MixinNumber]) as E by evaluate.
      unfold policyOn. rewrite E. left. by left. }
    split; [exact Hon|].
    destruct (repeated_mixinInits_follows_multiMixin exampleProgram Combinator
                (Bare MixinNumber) (fst allocatedMulti) (fst multiOnce) (fst multiTwice)
                (snd allocatedMulti) (snd multiOnce) (snd multiTwice)
                Hdecl ltac:(discriminate)
                (fun conf => proj1 (exampleProgram_quiet _ _ conf))
                MixinNumber_init_keeps_members
                eq_refl ltac:(evaluate) ltac:(evaluate))
      as (_ & Hiff & _ & Hpolicy & _ & Hhas & Hm).
    destruct (Hpolicy Hon) as (A & B).
    split; [exact (proj2 Hiff Hon)|]. split; [exact A|]. split; [exact B|].
    split; [exact Hhas | exact Hm].
Defined.

(** With [MixinNumber.multiMixin] set, the second call runs the initializer
    again. *)
Example repeated_mixinInits_with_multiMixin_on :
  let start : traced MixinStringConf :=
    (World (Object Combinator [BaseClass] ∅ None None) [] [MixinNumber], []) in
  let once := stateOf (mixinInits exampleProgram Combinator [Bare MixinNumber] start) start in
  let twice := stateOf (mixinInits exampleProgram Combinator [Bare MixinNumber] once) start in
  mixinInits exampleProgram Combinator [Bare MixinNumber] start = Ok (tt, once) /\
  mixinInits exampleProgram Combinator [Bare MixinNumber] once = Ok (tt, twice) /\
  snd twice = [Init MixinNumber (VFun MixinNumber "MixinNumber") None;
               Init MixinNumber (VFun MixinNumber "MixinNumber") None] /\
  mixinsApplied (host (fst twice)) =
    Some [(MixinNumber, Applied Combinator (VFun MixinNumber "MixinNumberDestroy"))].
Proof.
  cbv zeta. split; [evaluate|]. split; [evaluate|]. split; evaluate.
Qed.

(** C3 at the example: [new Combinator()], then [destroy()]; the two
    finalizers have deleted [myString] and [myNumber]. *)
Lemma mixinDestroys_reverse_order_witness :
  Combinator_constructor allocated = Ok (tt, composed) /\
  Combinator_destroy composed = Ok (tt, destroyed) /\
  snd destroyed =
    snd composed ++ [Destroy MixinString (VFun MixinString "MixinStringDestroy");
                     Destroy MixinNumber (VFun MixinNumber "MixinNumberDestroy")] /\
  (exists w1,
     finalized exampleProgram
       [(MixinString, Applied Combinator (VFun MixinString "MixinStringDestroy"));
        (MixinNumber, Applied Combinator (VFun MixinNumber "MixinNumberDestroy"))]
       (counted (fst composed)) w1 /\
     own (host (fst destroyed)) = own (host w1) /\
     console (fst destroyed) = console w1) /\
  own (host (fst composed)) !! "myString"
    = Some (Descriptor (VString "Fave nr is: ") true true true) /\
  own (host (fst composed)) !! "myNumber"
    = Some (Descriptor (VNumber (Num 1)) true true true) /\
  own (host (fst destroyed)) !! "myString" = None /\
  own (host (fst destroyed)) !! "myNumber" = None.
Proof.
  split; [evaluate|]. split; [evaluate|].
  destruct (mixinDestroys_reverse_order exampleProgram Combinator MixinNumber MixinString
              (Applied Combinator (VFun MixinNumber "MixinNumberDestroy"))
              (Applied Combinator (VFun MixinString "MixinStringDestroy"))
              [] [] [] (fst composed) (fst destroyed) (snd composed) (snd destroyed)
              ltac:(evaluate) eq_refl eq_refl ltac:(evaluate)) as [Htrace Hrun].
  split; [exact Htrace|]. split; [exact Hrun|].
  split; [evaluate|]. split; [evaluate|]. split; evaluate.
Defined.

(** C4, counterexample.  [BaseClass] has attached [MixinNumber] and
    [Combinator] has attached [MixinString]; [mixinDestroys(BaseClass)] has
    been called once, and both units are still registered.  A second
    [mixinDestroys(BaseClass)] brings the counter to the registry size and
    deletes the registry: [hasMixin(H, MixinString)] is false afterwards,
    although no finalizer of [MixinString] has run. *)
Lemma second_mixinDestroys_detaches_unit_of_other_owner :
  reachable exampleProgram baseTornDown /\
  mixinsApplied (host (fst baseTornDown)) = Some twoOwnersRegistry /\
  hasMixin (host (fst baseTornDown)) MixinNumber = true /\
  hasMixin (host (fst baseTornDown)) MixinString = true /\
  mixinDestroys exampleProgram BaseClass baseTornDown = Ok (tt, baseTornDownTwice) /\
  hasMixin (host (fst baseTornDownTwice)) MixinString = false /\
  (forall f, ~ In (Destroy MixinString f) (snd baseTornDownTwice)).
Proof.
  split.
  { apply (reachable_call exampleProgram twoOwners baseTornDown
             (CallMixinDestroys BaseClass)); [|evaluate].
    apply reachable_twoOwners. }
  split; [evaluate|]. split; [evaluate|]. split; [evaluate|]. split; [evaluate|].
  split; [evaluate|].
  assert (snd baseTornDownTwice =
          [Init MixinNumber (VFun MixinNumber "MixinNumber") None;
           Init MixinString (VFun MixinString "MixinString")
             (Some {| defaultValue := Some "Fave nr is: " |});
           Destroy MixinNumber (VFun MixinNumber "MixinNumberDestroy");
           Destroy MixinNumber (VFun MixinNumber "MixinNumberDestroy")]) as -> by evaluate.
  intros f [H|[H|[H|[H|[]]]]]; discriminate H.
Qed.

(** C4, as the code has it, at the variant with two owning classes: the
    first [mixinDestroys(BaseClass)], which keeps the registry, and the
    second one, which deletes it. *)
Lemma mixinDestroys_scoped_to_owner_witness :
  (mixinDestroys exampleProgram BaseClass twoOwners = Ok (tt, baseTornDown) /\
   snd baseTornDown =
     snd twoOwners ++ [Destroy MixinNumber (VFun MixinNumber "MixinNumberDestroy")] /\
   (forall n, n ∈ getOwnPropertyNames exampleProgram MixinString ->
      own (host (fst baseTornDown)) !! n = own (host (fst twoOwners)) !! n) /\
   mixinsApplied (host (fst baseTornDown)) = Some twoOwnersRegistry /\
   hasMixin (host (fst baseTornDown)) MixinString = true) /\
  (mixinDestroys exampleProgram BaseClass baseTornDown = Ok (tt, baseTornDownTwice) /\
   snd baseTornDownTwice =
     snd baseTornDown ++ [Destroy MixinNumber (VFun MixinNumber "MixinNumberDestroy")] /\
   mixinsApplied (host (fst baseTornDownTwice)) = None /\
   hasMixin (host (fst baseTornDownTwice)) MixinString = false).
Proof.
  assert (NoDup (map fst twoOwnersRegistry)) as Hnodup.
  { apply (bool_decide_unpack _). by vm_compute. }
  assert (forall e, In e twoOwnersRegistry -> ownedBy BaseClass e = true ->
            quietFinalizer exampleProgram e /\
            keepsProperties (getOwnPropertyNames exampleProgram MixinString)
              (call exampleProgram (destroyMethod (snd e)) None)) as Hquiet.
  { intros e [<-|[<-|[]]] Ho; [|discriminate].
    split; [apply exampleProgram_quietFinalizer|].
    apply MixinNumberDestroy_keeps_MixinString_members. }
  split.
  - split; [evaluate|].
    destruct (mixinDestroys_scoped_to_owner exampleProgram BaseClass Combinator MixinString
                (Applied Combinator (VFun MixinString "MixinStringDestroy"))
                twoOwnersRegistry 0%Z (fst twoOwners) (fst baseTornDown)
                (snd twoOwners) (snd baseTornDown)
                ltac:(evaluate) ltac:(evaluate)
                ltac:(vm_compute; discriminate) ltac:(vm_compute; discriminate)
                Hnodup
                (or_intror (or_introl eq_refl)) eq_refl ltac:(discriminate) Hquiet
                ltac:(evaluate))
      as (A & _ & _ & _ & B & Hkept & _ & Hfirst).
    destruct (Hkept (Hfirst eq_refl)) as (Hr & _ & Hhas).
    split; [exact A|]. split; [exact B|]. split; [exact Hr | exact Hhas].
  - split; [evaluate|].
    destruct (mixinDestroys_scoped_to_owner exampleProgram BaseClass Combinator MixinString
                (Applied Combinator (VFun MixinString "MixinStringDestroy"))
                twoOwnersRegistry 1%Z (fst baseTornDown) (fst baseTornDownTwice)
                (snd baseTornDown) (snd baseTornDownTwice)
                ltac:(evaluate) ltac:(evaluate)
                ltac:(vm_compute; discriminate) ltac:(vm_compute; discriminate)
                Hnodup
                (or_intror (or_introl eq_refl)) eq_refl ltac:(discriminate) Hquiet
                ltac:(evaluate))
      as (A & _ & _ & _ & _ & _ & Hretired & _).
    destruct (Hretired ltac:(evaluate)) as (Hr & _ & Hhas).
    split; [exact A|]. split; [exact Hr | exact Hhas].
Defined.

(** C5, counterexample.  [BaseClass] has attached [MixinNumber] and
    [Combinator] has attached [MixinString].  The first
    [mixinDestroys(Combinator)] keeps the registry; the second one selects the
    entry of [MixinString] again and calls its finalizer a second time, and
    then deletes the registry. *)
Lemma second_mixinDestroys_calls_finalizer_again :
  mixinDestroys exampleProgram Combinator twoOwners = Ok (tt, tornDownOnce) /\
  is_Some (mixinsApplied (host (fst tornDownOnce))) /\
  mixinDestroys exampleProgram Combinator tornDownOnce = Ok (tt, tornDownTwice) /\
  snd tornDownOnce =
    snd twoOwners ++ [Destroy MixinString (VFun MixinString "MixinStringDestroy")] /\
  snd tornDownTwice =
    snd tornDownOnce ++ [Destroy MixinString (VFun MixinString "MixinStringDestroy")] /\
  snd tornDownTwice <> snd tornDownOnce /\
  mixinsApplied (host (fst tornDownTwice)) = None.
Proof.
  split; [evaluate|].
  split; [vm_compute; eauto|].
  split; [evaluate|].
  split; [evaluate|].
  split; [evaluate|].
  split; [vm_compute; discriminate | evaluate].
Qed.

(** C5, as the code has it, at the variant with two owning classes: the
    second [mixinDestroys(Combinator)] runs [MixinStringDestroy] again and,
    the counter reaching the registry size, deletes the registry. *)
Lemma repeated_mixinDestroys_repeats_finalizers_witness :
  mixinDestroys exampleProgram Combinator twoOwners = Ok (tt, tornDownOnce) /\
  mixinDestroys exampleProgram Combinator tornDownOnce = Ok (tt, tornDownTwice) /\
  snd tornDownOnce = snd twoOwners ++
    map destroyEvent (rev (List.filter (ownedBy Combinator) twoOwnersRegistry)) /\
  snd tornDownTwice = snd tornDownOnce ++
    map destroyEvent (rev (List.filter (ownedBy Combinator) twoOwnersRegistry)) /\
  mixinsDestroyed (host (fst tornDownOnce)) = Some (Num 1) /\
  mixinsApplied (host (fst tornDownTwice)) = None /\
  mixinsDestroyed (host (fst tornDownTwice)) = None.
Proof.
  split; [evaluate|]. split; [evaluate|].
  destruct (repeated_mixinDestroys_repeats_finalizers exampleProgram Combinator
              twoOwnersRegistry 0%Z
              (fst twoOwners) (fst tornDownOnce) (fst tornDownTwice)
              (snd twoOwners) (snd tornDownOnce) (snd tornDownTwice)
              ltac:(evaluate) ltac:(evaluate)
              ltac:(vm_compute; discriminate) ltac:(vm_compute; discriminate)
              (fun e _ _ => exampleProgram_quietFinalizer e)
              ltac:(evaluate) ltac:(vm_compute; eauto) ltac:(evaluate))
    as (A & B & _ & _ & C & Hcase & _).
  split; [exact A|]. split; [exact B|]. split; [exact C|].
  destruct Hcase as [(Hsize & _)|(_ & Hr & Hc)].
  - exfalso. apply Hsize. evaluate.
  - split; [exact Hr | exact Hc].
Defined.

(** C6, counterexample.  After [new Combinator()] two units are attached and
    no finalizer has run, yet the host has a registry and no counter: the
    counter is not created on first attachment.  And in the variant with two
    owning classes, after [mixinDestroys(Combinator)] has been called twice
    the registry is gone although the finalizer of [MixinNumber], attached by
    [BaseClass], was never called. *)
Lemma counter_absent_while_units_attached :
  (Combinator_constructor allocated = Ok (tt, composed) /\
   reachable exampleProgram composed /\
   hasMixin (host (fst composed)) MixinNumber = true /\
   hasMixin (host (fst composed)) MixinString = true /\
   (forall U f, ~ In (Destroy U f) (snd composed)) /\
   is_Some (mixinsApplied (host (fst composed))) /\
   mixinsDestroyed (host (fst composed)) = None) /\
  (reachable exampleProgram tornDownTwice /\
   (forall f, ~ In (Destroy MixinNumber f) (snd tornDownTwice)) /\
   mixinsApplied (host (fst tornDownTwice)) = None).
Proof.
  split.
  - split; [evaluate|]. split.
    { apply (reachable_call exampleProgram
               (World (Object Combinator [BaseClass] ∅ None None)
                      [ConsoleLog "BaseClass is here!"] [], [])
               composed
               (CallMixinInits Combinator [Bare MixinNumber; MixinStringArg])); [|evaluate].
      by apply reachable_new. }
    split; [evaluate|]. split; [evaluate|]. split.
    { assert (snd composed =
              [Init MixinNumber (VFun MixinNumber "MixinNumber") None;
               Init MixinString (VFun MixinString "MixinString")
                 (Some {| defaultValue := Some "Fave nr is: " |})]) as -> by evaluate.
      intros U f [H|[H|[]]]; discriminate. }
    split; [vm_compute; eauto | evaluate].
  - split.
    { apply (reachable_call exampleProgram tornDownOnce tornDownTwice
               (CallMixinDestroys Combinator)); [|evaluate].
      apply (reachable_call exampleProgram twoOwners tornDownOnce
               (CallMixinDestroys Combinator)); [|evaluate].
      apply reachable_twoOwners. }
    split; [|evaluate].
    assert (snd tornDownTwice =
            [Init MixinNumber (VFun MixinNumber "MixinNumber") None;
             Init MixinString (VFun MixinString "MixinString")
               (Some {| defaultValue := Some "Fave nr is: " |});
             Destroy MixinString (VFun MixinString "MixinStringDestroy");
             Destroy MixinString (VFun MixinString "MixinStringDestroy")]) as -> by evaluate.
    intros f [H|[H|[H|[H|[]]]]]; discriminate.
Qed.

(** C6, as the code has it, at the variant with two owning classes. *)
Lemma bookkeeping_lifecycle_witness :
  quietProgram exampleProgram /\ reachable exampleProgram twoOwners /\
  (is_Some (mixinsDestroyed (host (fst twoOwners))) ->
   is_Some (mixinsApplied (host (fst twoOwners)))) /\
  (mixinsApplied (host (fst tornDownOnce)) = Some twoOwnersRegistry /\
   mixinsDestroyed (host (fst tornDownOnce)) = Some (Num 1)).
Proof.
  split; [exact exampleProgram_quiet|]. split; [exact reachable_twoOwners|].
  destruct (bookkeeping_lifecycle exampleProgram twoOwners
              exampleProgram_quiet reachable_twoOwners) as (A & _ & B).
  split; [exact A|].
  specialize (B Combinator tornDownOnce ltac:(evaluate)).
  assert (mixinsApplied (host (fst twoOwners)) = Some twoOwnersRegistry) as Hm by evaluate.
  rewrite Hm in B. destruct B as (k & Hk & Hcase).
  assert (k = 0%Z) as ->.
  { assert (destroyedCount (host (fst twoOwners)) = Some 0%Z) as E by evaluate. congruence. }
  destruct Hcase as [(Hsize & _)|(_ & Hr & Hc)]; [vm_compute in Hsize; discriminate Hsize|].
  split; [exact Hr | exact Hc].
Defined.

(** C7, counterexample.  On a [Combinator] whose [constructor] has been
    set to [undefined], the check of [MixinString] against [MixinNumber]
    fails and [notApplicable] throws a [TypeError] instead of returning. *)
Lemma notApplicable_throws_without_constructor :
  get exampleProgram (host nameless) "constructor" = VUndefined /\
  ~ meetsRequirement (host nameless) MixinNumber /\
  notApplicable exampleProgram MixinString MixinNumber nameless
  = Throw (TypeError "Cannot read properties of undefined (reading 'name')").
Proof.
  split; [evaluate|]. split; [|evaluate].
  intros [H|(m & Hm & _)]; [|discriminate Hm].
  simpl in H. destruct H as [H|[H|[]]]; discriminate H.
Qed.

(** C7, as the code has it, at the example: a new [Combinator] does not
    satisfy the requirement of [MixinString]; it does once [MixinNumber] is
    attached; and it satisfies a requirement for [BaseClass] as an
    instance. *)
Lemma notApplicable_checks_instance_or_mixin_witness :
  notApplicable exampleProgram MixinString MixinNumber (fst allocated)
  = Ok (true, with_console (fst allocated)
                [ConsoleError "Combinator is not an instance of MixinNumber and can not use mixin MixinString. Correct this fault as it can lead to unpredictable behaviour."]) /\
  notApplicable exampleProgram MixinString MixinNumber (fst numberOnce)
  = Ok (false, fst numberOnce) /\
  notApplicable exampleProgram MixinString BaseClass (fst allocated)
  = Ok (false, fst allocated) /\
  notApplicable exampleProgram MixinString MixinNumber nameless
  = Throw (TypeError "Cannot read properties of undefined (reading 'name')").
Proof.
  split.
  { destruct (notApplicable_checks_instance_or_mixin exampleProgram MixinString MixinNumber
                (fst allocated)) as (_ & Hfails & _).
    refine (proj1 (Hfails _) Combinator eq_refl).
    intros [H|(m & Hm & _)]; [|discriminate Hm].
    simpl in H. destruct H as [H|[H|[]]]; discriminate H. }
  split.
  { destruct (notApplicable_checks_instance_or_mixin exampleProgram MixinString MixinNumber
                (fst numberOnce)) as (Hmeets & _).
    apply Hmeets. right.
    exists [(MixinNumber, Applied Combinator (VFun MixinNumber "MixinNumberDestroy"))].
    split; [evaluate | by left]. }
  split.
  { destruct (notApplicable_checks_instance_or_mixin exampleProgram MixinString BaseClass
                (fst allocated)) as (Hmeets & _).
    apply Hmeets. left. right. by left. }
  destruct (notApplicable_checks_instance_or_mixin exampleProgram MixinString MixinNumber
              nameless) as (_ & Hfails & _).
  refine (proj2 (Hfails _) ltac:(evaluate)).
  intros [H|(m & Hm & _)]; [|discriminate Hm].
  simpl in H. destruct H as [H|[H|[]]]; discriminate H.
Defined.

(** C8 at the example: [applyMixin(new Combinator(), MixinString)]. *)
Lemma applyMixin_installs_members_keeps_constructor_witness :
  installable exampleProgram MixinString (host (fst allocated)) /\
  exists o',
    applyMixin exampleProgram MixinString (host (fst allocated)) = Ok (tt, o') /\
    get exampleProgram o' "constructor" = VClass Combinator /\
    own o' !! "getString" = Some (Descriptor (VFun MixinString "getString") true false true).
Proof.
  split; [apply allocated_installable|].
  destruct (applyMixin_installs_members_keeps_constructor exampleProgram MixinString
              (host (fst allocated)) (allocated_installable MixinString))
    as (o1 & o' & _ & Hcopied & Happly & Hctor & Hkept & _).
  exists o'. split; [exact Happly|]. split; [exact Hctor|].
  assert ("getString" ∈ getOwnPropertyNames exampleProgram MixinString) as Hin
    by (vm_compute; repeat constructor).
  rewrite (Hkept _ Hin) by discriminate.
  by rewrite (proj2 (Hcopied _ Hin)).
Defined.


End ExampleRuns.

(** ** More on member installation *)

Section InstallationEdges.

Context {Conf : Type} (P : program Conf).

Lemma copyList_Throw c l o e :
  forEach l (copyOne P c) o = Throw e -> exists msg, e = TypeError msg.
Proof.
  revert o. induction l as [|x l IH]; intros o H; simpl in H; [discriminate|].
  unfold bind in H.
  destruct (copyOne P c x o) as [[[] o1]|e1] eqn:Hx.
  - by eapply IH.
  - injection H as <-. unfold copyOne in Hx.
    destruct (getOwnPropertyDescriptor P c x) as [d|].
    + unfold defineProperty in Hx.
      destruct (own o !! x) as [cur|]; [|discriminate].
      repeat (case_match; try discriminate); injection Hx as <-; eauto.
    + injection Hx as <-. eauto.
Qed.

Lemma applyMixin_Throw c o e :
  applyMixin P c o = Throw e -> exists msg, e = TypeError msg.
Proof.
  unfold applyMixin, bind, gets. intros H.
  destruct (copyMembers P c o) as [[[] o1]|e1] eqn:Hcopy.
  - unfold setProperty in H. destruct (own o1 !! "constructor") as [cur|]; [|discriminate].
    destruct (writable cur); [discriminate|]. injection H as <-. eauto.
  - injection H as <-. rewrite copyMembers_eq in Hcopy. by eapply copyList_Throw.
Qed.

(** X1.  What [applyMixin] throws is a [TypeError], and it throws one
    whenever a member name of the unit is a non-configurable own property of
    the host; a call that completes shows that the host had none. *)
Theorem applyMixin_throws_TypeError_on_clash (U : class_id) (o : object) :
  (forall e, applyMixin P U o = Throw e -> exists msg, e = TypeError msg) /\
  (forall n cur, n ∈ getOwnPropertyNames P U -> own o !! n = Some cur ->
     configurable cur = false ->
     exists msg, applyMixin P U o = Throw (TypeError msg)) /\
  (forall o', applyMixin P U o = Ok (tt, o') -> installable P U o).
Proof.
  split; [intros e; apply applyMixin_Throw|]. split.
  - intros n cur Hn Hcur Hlocked.
    destruct (applyMixin P U o) as [[[] o']|e] eqn:H.
    + apply applyMixin_Ok in H as [Hi _].
      rewrite (Hi n cur Hn Hcur) in Hlocked. discriminate Hlocked.
    + destruct (applyMixin_Throw _ _ _ H) as [msg ->]. by exists msg.
  - intros o' H. by apply applyMixin_Ok in H as [Hi _].
Qed.

(** X2.  Installing the same unit a second time changes nothing. *)
Theorem applyMixin_idempotent (U : class_id) (o o1 : object) :
  applyMixin P U o = Ok (tt, o1) -> applyMixin P U o1 = Ok (tt, o1).
Proof.
  intros H1.
  pose proof (applyMixin_Ok P _ _ _ H1) as (Hi & _ & Hc1 & Hn1).
  destruct (applyMixin_total P U o1 (applyMixin_installable P _ _ _ _ H1 Hi)) as [o2 H2].
  rewrite H2. do 2 f_equal.
  pose proof (applyMixin_Ok P _ _ _ H2) as (_ & _ & Hc2 & Hn2).
  pose proof (applyMixin_fields P _ _ _ H2) as (F1 & F2 & F3 & F4).
  rewrite (get_own P _ _ _ Hc1) in Hc2. simpl in Hc2.
  destruct o1 as [h1 a1 own1 r1 d1], o2 as [h2 a2 own2 r2 d2]. simpl in *. subst.
  f_equal. apply map_eq. intros n.
  destruct (decide (n = "constructor")) as [->|Hne]; [congruence|].
  rewrite Hn2 by done. case_decide as Hin; [|done].
  rewrite Hn1 by done. by rewrite decide_True.
Qed.

(** X3.  When two units are installed one after the other, a member name
    that both declare ends up bound to the method of the later unit; the
    members that only the earlier unit declares stay; the host still reports
    its own [constructor]. *)
Theorem applyMixin_later_unit_shadows (U V : class_id) (o o1 o2 : object) :
  applyMixin P U o = Ok (tt, o1) ->
  applyMixin P V o1 = Ok (tt, o2) ->
  get P o2 "constructor" = get P o "constructor" /\
  (forall n, n ∈ methodNames P V -> n <> "constructor" -> get P o2 n = VFun V n) /\
  (forall n, n ∈ methodNames P U -> n ∉ methodNames P V -> n <> "constructor" ->
     get P o2 n = VFun U n).
Proof.
  intros H1 H2. split.
  - rewrite (applyMixin_constructor P _ _ _ H2). by apply applyMixin_constructor in H1.
  - split.
    + intros n Hin Hne. by rewrite (get_own P _ _ _ (installed_method P _ _ _ _ H2 Hin Hne)).
    + intros n HU HV Hne.
      pose proof (applyMixin_Ok P _ _ _ H2) as (_ & _ & _ & Hn2).
      apply (get_own P _ _ (Descriptor (VFun U n) true false true)).
      rewrite Hn2 by done. rewrite decide_False.
      * by apply (installed_method P _ _ _ _ H1).
      * intros Hin. apply elem_of_cons in Hin as [?|?]; done.
Qed.

End InstallationEdges.

(** ** More on composition *)

Section CompositionOfLists.

Context {Conf : Type} (P : program Conf).
Hypothesis quiet : quietProgram P.

Lemma initOne_registry C u m (w w' : world) (t t' : list (event Conf)) :
  mixinsApplied (host w) = Some m ->
  initOne P C u (w, t) = Ok (tt, (w', t')) ->
  (map_has m (mixinOf u) = true /\ mixinsApplied (host w') = Some m) \/
  (map_has m (mixinOf u) = false /\
   exists d, mixinsApplied (host w') = Some (m ++ [(mixinOf u, Applied C d)])).
Proof.
  intros Hm H.
  destruct (map_has m (mixinOf u)) eqn:Hhas.
  - left. split; [done|].
    assert (hasMixin (host w) (mixinOf u) = true) as Hh by (unfold hasMixin; by rewrite Hm).
    rewrite (initOne_attached P C u w t Hh) in H.
    destruct (multiMixinOf w u).
    + destruct (call P _ _ w) as [[v w1]|e] eqn:Hcall; [|discriminate].
      injection H as <- <-.
      destruct (call_quiet P quiet (get P (host w) (name P (mixinOf u))) (confOf u)) as [Hr _].
      by rewrite (Hr _ _ _ Hcall).
    + by injection H as <- <-.
  - right. split; [done|].
    assert (hasMixin (host w) (mixinOf u) = false) as Hh by (unfold hasMixin; by rewrite Hm).
    apply initOne_first_Ok in H as (o1 & v & w2 & m2 & Happly & Hcall & Hm2 & _ & -> & _);
      [|done].
    destruct (call_quiet P quiet (get P o1 (name P (mixinOf u))) (confOf u)) as [Hr _].
    pose proof (Hr _ _ _ Hcall) as Hr'. simpl in Hr'.
    pose proof (applyMixin_fields P _ _ _ Happly) as (_ & _ & Hr1 & _).
    assert (m2 = m) as -> by congruence.
    simpl. eexists. by rewrite map_set_absent.
Qed.

Lemma forEach_initOne_registry C l m (w w' : world) (t t' : list (event Conf)) :
  mixinsApplied (host w) = Some m ->
  forEach l (initOne P C) (w, t) = Ok (tt, (w', t')) ->
  exists m1,
    mixinsApplied (host w') = Some (m ++ m1) /\
    (forall e, In e m1 ->
       classApplyingMixin (snd e) = C /\ In (fst e) (map mixinOf l) /\
       map_has m (fst e) = false) /\
    (forall u, In u l -> map_has (m ++ m1) (mixinOf u) = true) /\
    (NoDup (map fst m) -> NoDup (map fst (m ++ m1))).
Proof.
  revert m w t. induction l as [|u l IH]; intros m w t Hm H; simpl in H.
  - injection H as <- <-. exists []. rewrite app_nil_r. by repeat split.
  - apply bind_Ok in H as ([] & [w1 t1] & H1 & H).
    destruct (initOne_registry C u m _ _ _ _ Hm H1) as [[Hhas Hr]|[Hhas [d Hr]]].
    + destruct (IH _ _ _ Hr H) as (m1 & Hr' & Hnew & Hall & Hnd).
      exists m1. split; [done|]. split; [|split; [|done]].
      * intros e He. destruct (Hnew e He) as (A & B & D). split; [done|]. split; [by right|done].
      * intros u' [<-|Hin]; [|by apply Hall].
        rewrite map_has_app, Hhas. done.
    + destruct (IH _ _ _ Hr H) as (m1 & Hr' & Hnew & Hall & Hnd).
      exists ((mixinOf u, Applied C d) :: m1).
      rewrite <- app_assoc in Hr'. simpl in Hr'.
      split; [done|]. split; [|split].
      * intros e [<-|He]; simpl; [by split; [|split; [left|]]|].
        destruct (Hnew e He) as (A & B & D). split; [done|]. split; [by right|].
        rewrite map_has_app in D. by apply orb_false_elim in D as [D _].
      * intros u' Hu'.
        replace (m ++ (mixinOf u, Applied C d) :: m1)
          with ((m ++ [(mixinOf u, Applied C d)]) ++ m1) by (by rewrite <- app_assoc).
        destruct Hu' as [<-|Hin]; [|by apply Hall].
        rewrite !map_has_app. unfold map_has at 2. simpl. rewrite Nat.eqb_refl.
        by rewrite orb_true_r.
      * intros Hnodup.
        replace (m ++ (mixinOf u, Applied C d) :: m1)
          with ((m ++ [(mixinOf u, Applied C d)]) ++ m1) by (by rewrite <- app_assoc).
        apply Hnd. rewrite map_app. simpl.
        apply NoDup_app. split; [done|]. split.
        -- intros k Hk Hk'. apply list_elem_of_singleton in Hk' as ->.
           apply list_elem_of_In, map_has_In in Hk. congruence.
        -- apply NoDup_singleton.
Qed.

(** The state in which the [forEach] of [mixinInits] starts. *)
Lemma mixinInits_start C l (w : world) (t : list (event Conf)) r :
  mixinInits P C l (w, t) = Ok r ->
  exists w0,
    forEach l (initOne P C) (w0, t) = Ok r /\
    mixinsApplied (host w0) = Some (entries (host w)) /\
    mixinsDestroyed (host w0) = mixinsDestroyed (host w).
Proof.
  intros H. rewrite mixinInits_unfold in H. unfold entries.
  destruct (mixinsApplied (host w)) as [m|] eqn:Hm.
  - exists w. by rewrite Hm.
  - destruct (applyMixin P Mixin (host w)) as [[[] o1]|e] eqn:Happly; [|discriminate].
    eexists. split; [exact H|]. simpl. split; [done|].
    by apply applyMixin_fields in Happly as (_ & _ & _ & ->).
Qed.

(** X4.  For a program whose methods leave the bookkeeping alone, a
    completed [mixinInits] keeps every entry the registry had, with its owner,
    its finalizer and its place, and appends entries for units that were not
    attached before; each appended entry is owned by [classOfInstance] and is
    one of the requested units. *)
Theorem mixinInits_keeps_earlier_attachments
    (C : class_id) (l : list (mixinArg Conf)) (w w' : world) (t t' : list (event Conf)) :
  mixinInits P C l (w, t) = Ok (tt, (w', t')) ->
  exists m1,
    mixinsApplied (host w') = Some (entries (host w) ++ m1) /\
    (forall e, In e m1 ->
       classApplyingMixin (snd e) = C /\ In (fst e) (map mixinOf l) /\
       hasMixin (host w) (fst e) = false).
Proof.
  intros H. apply mixinInits_start in H as (w0 & H & Hm & _).
  destruct (forEach_initOne_registry C l _ _ _ _ _ Hm H) as (m1 & Hr & Hnew & _).
  exists m1. split; [done|].
  intros e He. destruct (Hnew e He) as (A & B & D). split; [done|]. split; [done|].
  unfold hasMixin, entries in *. by destruct (mixinsApplied (host w)).
Qed.

(** X5.  For a program whose methods leave the bookkeeping alone, after a
    completed [mixinInits] every requested unit is attached, and so is every
    unit that was attached before. *)
Theorem mixinInits_attaches_every_requested_unit
    (C : class_id) (l : list (mixinArg Conf)) (w w' : world) (t t' : list (event Conf)) :
  mixinInits P C l (w, t) = Ok (tt, (w', t')) ->
  (forall u, In u l -> hasMixin (host w') (mixinOf u) = true) /\
  (forall U, hasMixin (host w) U = true -> hasMixin (host w') U = true).
Proof.
  intros H. apply mixinInits_start in H as (w0 & H & Hm & _).
  destruct (forEach_initOne_registry C l _ _ _ _ _ Hm H) as (m1 & Hr & _ & Hall & _).
  unfold hasMixin. rewrite Hr. split; [done|].
  intros U HU. rewrite map_has_app. apply orb_true_intro. left.
  unfold entries. by destruct (mixinsApplied (host w)).
Qed.

Lemma mixinInits_distinct_keys C l (w w' : world) (t t' : list (event Conf)) :
  mixinInits P C l (w, t) = Ok (tt, (w', t')) ->
  NoDup (map fst (entries (host w))) -> NoDup (map fst (entries (host w'))).
Proof.
  intros H Hnd. apply mixinInits_start in H as (w0 & H & Hm & _).
  destruct (forEach_initOne_registry C l _ _ _ _ _ Hm H) as (m1 & Hr & _ & _ & Hk).
  unfold entries at 1. rewrite Hr. by apply Hk.
Qed.

End CompositionOfLists.

(** ** More on teardown *)

Section TeardownEdges.

Context {Conf : Type} (P : program Conf).

(** X10.  [mixinDestroys] itself never changes an own property of the host:
    a property that the called finalizers leave alone is the same afterwards,
    also when the registry is retired.  Installed members are not removed by
    teardown. *)
Theorem mixinDestroys_keeps_properties
    (C : class_id) (names : list string) (w w' : world) (t t' : list (event Conf)) :
  (forall e, In e (entries (host w)) -> ownedBy C e = true ->
     keepsProperties names (call P (destroyMethod (snd e)) None)) ->
  mixinDestroys P C (w, t) = Ok (tt, (w', t')) ->
  forall n, n ∈ names -> own (host w') !! n = own (host w) !! n.
Proof.
  intros Hq H n Hn. rewrite mixinDestroys_unfold in H. unfold entries in Hq.
  destruct (mixinsApplied (host w)) as [m|]; [|by injection H as <- <-].
  simpl in H.
  destruct (forEach (rev _) _ _) as [[[] [w1 t1]]|x] eqn:Hloop; [|discriminate].
  destruct (retire (host w1)) as [[[] o]|x] eqn:Hret; [|discriminate].
  injection H as <- <-.
  assert (own o = own (host w1)) as Ho.
  { apply retire_Ok in Hret as (m' & _ & [[_ ->]|[_ ->]]); done. }
  simpl. rewrite Ho.
  rewrite (destroy_properties P names _ _ _ _ _
             (fun e He => Hq e (proj1 (proj1 (owned_selected C m e) He))
                                (proj2 (proj1 (owned_selected C m e) He)))
             Hloop n Hn).
  by destruct (mixinsDestroyed (host w)).
Qed.

(** X11.  With quiet finalizers, a [mixinDestroys] that does not retire the
    registry changes the answer of [hasMixin] for no unit: the units whose
    finalizers have just run still count as attached.  When it retires the
    registry, no unit counts as attached. *)
Theorem hasMixin_after_mixinDestroys
    (C : class_id) (m : list (class_id * applied)) (k : Z)
    (w w' : world) (t t' : list (event Conf)) :
  mixinsApplied (host w) = Some m ->
  destroyedCount (host w) = Some k ->
  (forall e, In e m -> ownedBy C e = true -> quietFinalizer P e) ->
  mixinDestroys P C (w, t) = Ok (tt, (w', t')) ->
  forall U,
    hasMixin (host w') U =
    if Z.eqb (Z.of_nat (length m)) (k + Z.of_nat (length (List.filter (ownedBy C) m)))
    then false
    else hasMixin (host w) U.
Proof.
  intros Hm Hk Hq H U.
  destruct (mixinDestroys_quiet P C m k w w' t t' Hm Hk Hq H) as (_ & Hcase & _).
  rewrite length_rev in Hcase. unfold hasMixin.
  destruct (Z.eqb _ _); destruct Hcase as [Hr _]; by rewrite Hr, ?Hm.
Qed.












End TeardownEdges.

(** ** The start of a composition, and units that miss a method *)

Section CompositionEdges.

Context {Conf : Type} (P : program Conf).

Lemma installable_check c o : installableb P c o = true -> installable P c o.
Proof.
  intros H n cur Hn Hcur. unfold installableb in H. rewrite forallb_forall in H.
  apply list_elem_of_In in Hn. specialize (H n Hn). by rewrite Hcur in H.
Qed.

Lemma get_after_applyMixin c o o1 n :
  applyMixin P c o = Ok (tt, o1) -> n ∉ methodNames P c -> get P o1 n = get P o n.
Proof.
  intros H Hn.
  destruct (decide (n = "constructor")) as [->|Hne]; [by apply applyMixin_constructor in H|].
  pose proof (applyMixin_fields P _ _ _ H) as (F1 & F2 & _).
  apply applyMixin_Ok in H as (_ & _ & _ & Hrest).
  unfold get. rewrite Hrest, F1, F2 by done.
  rewrite decide_False; [done|].
  intros Hin. apply elem_of_cons in Hin as [?|?]; done.
Qed.

Lemma mixinInits_prepare C l (w : world) (t : list (event Conf)) :
  (mixinsApplied (host w) = None -> installable P Mixin (host w)) ->
  exists w0,
    mixinInits P C l (w, t) = forEach l (initOne P C) (w0, t) /\ prepared P w w0.
Proof.
  intros Hi. rewrite mixinInits_unfold. unfold prepared, entries.
  destruct (mixinsApplied (host w)) as [m|] eqn:Hm.
  - exists w. rewrite Hm. by repeat split.
  - destruct (applyMixin_total P Mixin (host w) (Hi eq_refl)) as [o1 Happly].
    rewrite Happly. eexists. split; [done|]. simpl.
    pose proof (applyMixin_fields P _ _ _ Happly) as (F1 & F2 & F3 & F4).
    split; [done|]. split; [done|]. split; [done|]. split; [done|].
    split; [done|]. split; [done|]. split; [|split].
    + intros n Hn. unfold get. simpl.
      apply (get_after_applyMixin _ _ _ _ Happly Hn).
    + intros n Hn. apply applyMixin_Ok in Happly as (_ & _ & _ & Hrest).
      rewrite Hrest; [by rewrite decide_False|].
      intros ->. apply Hn, constructor_is_name.
    + intros c Hc n cur Hn Hcur. simpl in Hcur.
      by eapply (applyMixin_installable P _ _ _ _ Happly Hc).
Qed.

Lemma mixinInits_completed_prepare C l (w : world) (t : list (event Conf)) r :
  mixinInits P C l (w, t) = Ok r ->
  exists w0, forEach l (initOne P C) (w0, t) = Ok r /\ prepared P w w0.
Proof.
  intros H.
  destruct (mixinInits_prepare C l w t) as (w0 & Heq & Hprep).
  - intros Hm. rewrite mixinInits_unfold, Hm in H.
    destruct (applyMixin P Mixin (host w)) as [[[] o1]|e] eqn:Happly; [|discriminate].
    by apply applyMixin_Ok in Happly as [Hi _].
  - exists w0. by rewrite <- Heq.
Qed.

(** X6.  [mixinInits] with no units, on a new host where the members of
    [Mixin] can be defined, completes without calling anything: it creates an
    empty registry, installs [mixinDestroys] and keeps the [constructor].  A
    [mixinDestroys] for any class that follows deletes the registry again,
    creates no lasting counter, calls nothing and leaves the own properties
    as they are. *)
Theorem mixinInits_without_units (C C' : class_id) (w : world) (t : list (event Conf)) :
  mixinsApplied (host w) = None -> mixinsDestroyed (host w) = None ->
  installable P Mixin (host w) ->
  exists w1 w2,
    mixinInits P C [] (w, t) = Ok (tt, (w1, t)) /\
    mixinsApplied (host w1) = Some [] /\
    get P (host w1) "mixinDestroys" = VFun Mixin "mixinDestroys" /\
    get P (host w1) "constructor" = get P (host w) "constructor" /\
    mixinDestroys P C' (w1, t) = Ok (tt, (w2, t)) /\
    mixinsApplied (host w2) = None /\ mixinsDestroyed (host w2) = None /\
    own (host w2) = own (host w1).
Proof.
  intros Hm Hd Hi.
  destruct (applyMixin_total P Mixin (host w) Hi) as [o1 Happly].
  pose proof (applyMixin_fields P _ _ _ Happly) as (F1 & F2 & F3 & F4).
  eexists _, _. split.
  { rewrite mixinInits_unfold, Hm, Happly. reflexivity. }
  simpl. split; [done|]. split.
  { apply (get_own P _ _ (Descriptor (VFun Mixin "mixinDestroys") true false true)).
    simpl. apply (installed_method P _ _ _ _ Happly); [|done].
    unfold methodNames. rewrite decide_True by done. apply elem_of_cons. by left. }
  split.
  { unfold get. simpl. apply (applyMixin_constructor P _ _ _ Happly). }
  split.
  { rewrite mixinDestroys_unfold. simpl. rewrite F4, Hd. reflexivity. }
  by repeat split.
Qed.

(** X8.  A unit without an initializer cannot be attached: when neither
    the class of the unit nor the host has a member called like the unit,
    [mixinInits] throws a [TypeError] at the call of the initializer. *)
Theorem mixinInits_unit_without_initializer
    (C : class_id) (u : mixinArg Conf) (w : world) (t : list (event Conf)) :
  hasMixin (host w) (mixinOf u) = false ->
  installable P Mixin (host w) -> installable P (mixinOf u) (host w) ->
  name P (mixinOf u) ∉ methodNames P (mixinOf u) ->
  name P (mixinOf u) ∉ methodNames P Mixin ->
  get P (host w) (name P (mixinOf u)) = VUndefined ->
  mixinInits P C [u] (w, t) = Throw (TypeError "is not a function").
Proof.
  intros Hhas HiM HiU HnU HnM Hget.
  destruct (mixinInits_prepare C [u] w t (fun _ => HiM))
    as (w0 & -> & (Hr & _ & _ & _ & _ & _ & Hgets & _ & Hinst)).
  assert (hasMixin (host w0) (mixinOf u) = false) as Hhas0.
  { unfold hasMixin, entries in *. rewrite Hr. by destruct (mixinsApplied (host w)). }
  destruct (applyMixin_total P (mixinOf u) (host w0) (Hinst _ HiU)) as [o1 Happly].
  simpl. unfold bind. rewrite (initOne_first P C u w0 t Hhas0), Happly. simpl.
  rewrite (get_after_applyMixin _ _ _ _ Happly HnU), (Hgets _ HnM), Hget. reflexivity.
Qed.

(** X7.  A unit without a finalizer cannot be attached: when neither the
    class of the unit nor the host has a member [U.name + "Destroy"], and the
    initializer returns without creating one, [mixinInits] throws a
    [TypeError] when it binds the finalizer, after the initializer has run. *)
Theorem mixinInits_unit_without_finalizer
    (C : class_id) (u : mixinArg Conf) (w : world) (t : list (event Conf)) :
  hasMixin (host w) (mixinOf u) = false ->
  installable P Mixin (host w) -> installable P (mixinOf u) (host w) ->
  name P (mixinOf u) ∈ methodNames P (mixinOf u) -> name P (mixinOf u) <> "constructor" ->
  name P (mixinOf u) +:+ "Destroy" ∉ methodNames P (mixinOf u) ->
  name P (mixinOf u) +:+ "Destroy" ∉ methodNames P Mixin ->
  get P (host w) (name P (mixinOf u) +:+ "Destroy") = VUndefined ->
  (forall conf w0,
     is_Some (mixinsApplied (host w0)) ->
     get P (host w0) (name P (mixinOf u) +:+ "Destroy") = VUndefined ->
     exists v w1,
       body P (mixinOf u) (name P (mixinOf u)) conf w0 = Ok (v, w1) /\
       is_Some (mixinsApplied (host w1)) /\
       get P (host w1) (name P (mixinOf u) +:+ "Destroy") = VUndefined) ->
  mixinInits P C [u] (w, t)
  = Throw (TypeError "Cannot read properties of undefined (reading 'bind')").
Proof.
  set (U := mixinOf u). set (d := name P U +:+ "Destroy").
  intros Hhas HiM HiU Hdecl Hne HdU HdM Hget Hbody.
  destruct (mixinInits_prepare C [u] w t (fun _ => HiM))
    as (w0 & -> & (Hr & _ & _ & _ & _ & _ & Hgets & _ & Hinst)).
  assert (hasMixin (host w0) U = false) as Hhas0.
  { unfold hasMixin, entries in *. rewrite Hr. by destruct (mixinsApplied (host w)). }
  destruct (applyMixin_total P U (host w0) (Hinst _ HiU)) as [o1 Happly].
  pose proof (applyMixin_fields P _ _ _ Happly) as (_ & _ & F3 & _).
  destruct (Hbody (confOf u) (with_host w0 o1)) as (v & w1 & Hrun & [m1 Hm1] & Hd1).
  { simpl. rewrite F3, Hr. eauto. }
  { simpl. by rewrite (get_after_applyMixin _ _ _ _ Happly HdU), (Hgets _ HdM). }
  simpl. unfold bind. rewrite (initOne_first P C u w0 t Hhas0). fold U. rewrite Happly. simpl.
  rewrite (get_own P _ _ _ (installed_method P _ _ _ _ Happly Hdecl Hne)). simpl.
  rewrite Hrun. unfold recordApplied. rewrite Hm1. fold d. rewrite Hd1. reflexivity.
Qed.

(** X15.  On first attachment the initializer runs in a state in which the
    members of the unit are already installed on the host, while the unit is
    not yet in the registry: [hasMixin(H, U)] is still false there. *)
Theorem initializer_runs_before_registration
    (C : class_id) (u : mixinArg Conf) (w w' : world) (t t' : list (event Conf)) :
  hasMixin (host w) (mixinOf u) = false ->
  mixinInits P C [u] (w, t) = Ok (tt, (w', t')) ->
  exists w1 v w2,
    call P (get P (host w1) (name P (mixinOf u))) (confOf u) w1 = Ok (v, w2) /\
    hasMixin (host w1) (mixinOf u) = false /\
    (forall n, n ∈ getOwnPropertyNames P (mixinOf u) -> n <> "constructor" ->
       own (host w1) !! n = getOwnPropertyDescriptor P (mixinOf u) n) /\
    console w1 = console w /\
    own (host w') = own (host w2) /\ console w' = console w2.
Proof.
  intros Hhas H.
  apply mixinInits_completed_prepare in H as (w0 & H & (Hr & _ & _ & _ & Hcons & _)).
  assert (hasMixin (host w0) (mixinOf u) = false) as Hhas0.
  { unfold hasMixin, entries in *. rewrite Hr. by destruct (mixinsApplied (host w)). }
  simpl in H. apply bind_Ok in H as ([] & [w1' t1] & H & Hret). injection Hret as <- <-.
  apply initOne_first_Ok in H as (o1 & v & w2 & m & Happly & Hcall & _ & _ & -> & _); [|done].
  exists (with_host w0 o1), v, w2. split; [done|]. split.
  { simpl. by rewrite (applyMixin_hasMixin P _ _ _ _ Happly). }
  split; [|done].
  intros n Hin Hne. simpl.
  apply applyMixin_Ok in Happly as (_ & _ & _ & Hrest).
  rewrite Hrest by done. by rewrite decide_True.
Qed.

(** X12.  When the initializer of [U] returns early on its failed check
    against [T], a completed [mixinInits(H, C, U)] has changed no own property
    of the host beyond the members of [U] and of [Mixin]: no field of the
    unit has been set. *)
Theorem failed_constraint_sets_no_field
    (C U T c : class_id) (u : mixinArg Conf) (w w' : world) (t t' : list (event Conf)) :
  mixinOf u = U ->
  name P U ∈ methodNames P U -> "constructor" ∉ methodNames P U ->
  "constructor" ∉ methodNames P Mixin ->
  (forall conf w0 w1, notApplicable P U T w0 = Ok (true, w1) ->
     body P U (name P U) conf w0 = Ok (VUndefined, w1)) ->
  hasMixin (host w) U = false ->
  instanceOf (host w) T = false -> hasMixin (host w) T = false ->
  get P (host w) "constructor" = VClass c ->
  mixinInits P C [u] (w, t) = Ok (tt, (w', t')) ->
  forall n, n ∉ getOwnPropertyNames P U -> n ∉ getOwnPropertyNames P Mixin ->
    own (host w') !! n = own (host w) !! n.
Proof.
  intros <- Hdecl Hnoctor HnoctorM Hearly HhasU Hinst HhasT Hctor H n HnU HnM.
  apply mixinInits_completed_prepare in H
    as (w0 & H & (Hr & _ & Hh & Ha & _ & _ & Hgets & How & _)).
  assert (forall V, hasMixin (host w0) V = hasMixin (host w) V) as Hhas0.
  { intros V. unfold hasMixin, entries in *. rewrite Hr. by destruct (mixinsApplied (host w)). }
  simpl in H. apply bind_Ok in H as ([] & [w1' t1] & H & Hret). injection Hret as <- <-.
  apply initOne_first_Ok in H as (o1 & v & w2 & m & Happly & Hcall & _ & _ & -> & _);
    [|by rewrite Hhas0].
  assert (name P (mixinOf u) <> "constructor") as Hne by (intros E; by rewrite E in Hdecl).
  rewrite (get_own P _ _ _ (installed_method P _ _ _ _ Happly Hdecl Hne)) in Hcall.
  simpl in Hcall.
  assert (notApplicable P (mixinOf u) T (with_host w0 o1) =
          Ok (true, with_console (with_host w0 o1)
                      (console (with_host w0 o1) ++ [ConsoleError
                         (notApplicableMessage (name P c) (name P (mixinOf u)) (name P T))])))
    as Hcheck.
  { unfold notApplicable. simpl.
    rewrite (applyMixin_instanceOf P _ _ _ _ Happly), (applyMixin_hasMixin P _ _ _ _ Happly).
    rewrite Hhas0, HhasT. unfold instanceOf in *. rewrite Hh, Ha, Hinst. simpl.
    by rewrite (applyMixin_constructor P _ _ _ Happly), (Hgets _ HnoctorM), Hctor. }
  rewrite (Hearly _ _ _ Hcheck) in Hcall. injection Hcall as _ <-.
  simpl. apply applyMixin_Ok in Happly as (_ & _ & _ & Hrest).
  rewrite Hrest, decide_False, How; try done.
  intros ->. apply HnU, constructor_is_name.
Qed.

End CompositionEdges.

Section Invariants.

Context {Conf : Type} (P : program Conf).

(** X14.  For a program whose methods leave the bookkeeping alone, in every
    reachable state the registry holds at most one entry per unit, and the
    teardown counter, when present, is a number that is not negative. *)
Theorem reachable_registry_invariants (s : traced Conf) :
  quietProgram P ->
  reachable P s ->
  NoDup (map fst (entries (host (fst s)))) /\
  exists k, destroyedCount (host (fst s)) = Some k /\ (0 <= k)%Z.
Proof.
  intros quiet. induction 1 as [w Hr Hc|[w t] [w' t'] c Hreach [IH1 (k & Hk & Hpos)] Hstep];
    simpl in *.
  - unfold entries, destroyedCount. rewrite Hr, Hc. split; [constructor|]. by exists 0%Z.
  - destruct c as [C l|C|n arg]; simpl in Hstep.
    + split; [by eapply mixinInits_distinct_keys|].
      apply (mixinInits_bookkeeping P quiet) in Hstep as [_ Hc].
      unfold destroyedCount in *. rewrite Hc. eauto.
    + pose proof (mixinDestroys_step P quiet C w w' t t' k Hk Hstep) as Hcase.
      unfold entries in *.
      destruct (mixinsApplied (host w)) as [m|] eqn:Hm.
      * simpl in Hcase. unfold destroyedCount.
        destruct (Z.eqb _ _); destruct Hcase as [-> ->].
        -- split; [constructor|]. by exists 0%Z.
        -- split; [done|]. eexists. split; [done|]. lia.
      * injection Hcase as -> ->. rewrite Hm. split; [constructor|]. eauto.
    + apply onWorld_Ok in Hstep as (w1 & Hstep & Heq). injection Heq as <- <-.
      simpl in Hstep.
      apply bind_Ok in Hstep as (f & w2 & Hf & Hstep). injection Hf as <- <-.
      apply bind_Ok in Hstep as (v & w2 & Hcall & Hret). injection Hret as <-.
      destruct (call_quiet P quiet (get P (host w) n) arg) as [Hr Hc].
      unfold entries, destroyedCount in *.
      rewrite (Hr _ _ _ Hcall), (Hc _ _ _ Hcall). eauto.
Qed.

End Invariants.

Module ExampleEdgeRuns.
Import Example ExampleFacts ExampleRuns ExampleEdges Incomplete.

(** X13.  In the example, whatever [defaultValue] the configuration gives,
    composing [MixinNumber] and [MixinString] completes; [getString()] then
    returns the [defaultValue] when it is a non-empty string and
    ["My value: "] otherwise; [joinWithNumber()] completes, after which
    [getString()] returns the former text followed by ["1"], and
    [getNumber()] returns 1. *)
Theorem getString_falls_back_on_empty_default (d : option string) :
  mixinInits exampleProgram Combinator
    [Bare MixinNumber; Configured MixinString (Some {| defaultValue := d |}) false] allocated
    = Ok (tt, composedWith d) /\
  send exampleProgram "getString" None (fst (composedWith d))
    = Ok (VString (shown d), fst (composedWith d)) /\
  send exampleProgram "joinWithNumber" None (fst (composedWith d))
    = Ok (VUndefined, joinedWith d) /\
  send exampleProgram "getString" None (joinedWith d)
    = Ok (VString (shown d +:+ "1"), joinedWith d) /\
  send exampleProgram "getNumber" None (joinedWith d)
    = Ok (VNumber (Num 1), joinedWith d).
Proof.
  destruct d as [[|a s]|];
    (split; [evaluate|]; split; [evaluate|]; split; [evaluate|]; split; evaluate).
Qed.

(** X16.  In the example, [MixinString] reads its configuration: attaching
    it without one to a host that has [MixinNumber] throws a [TypeError] from
    its initializer. *)
Theorem MixinString_without_conf_throws
    (C : class_id) (w : world) (t : list (event MixinStringConf)) :
  hasMixin (host w) MixinNumber = true ->
  hasMixin (host w) MixinString = false ->
  installable exampleProgram MixinString (host w) ->
  mixinInits exampleProgram C [Bare MixinString] (w, t)
  = Throw (TypeError "Cannot read properties of undefined (reading 'defaultValue')").
Proof.
  intros HhasN HhasS Hi.
  destruct (mixinInits_prepare exampleProgram C [Bare MixinString] w t)
    as (w0 & -> & (Hr & _ & _ & _ & _ & _ & _ & _ & Hinst)).
  { intros Hm. unfold hasMixin in HhasN. rewrite Hm in HhasN. discriminate HhasN. }
  assert (forall V, hasMixin (host w0) V = hasMixin (host w) V) as Hhas0.
  { intros V. unfold hasMixin, entries in *. rewrite Hr. by destruct (mixinsApplied (host w)). }
  destruct (applyMixin_total exampleProgram MixinString (host w0) (Hinst _ Hi)) as [o1 Happly].
  assert (get exampleProgram o1 "MixinString" = VFun MixinString "MixinString") as Hget.
  { apply (get_own exampleProgram _ _
             (Descriptor (VFun MixinString "MixinString") true false true)).
    apply (installed_method exampleProgram _ _ _ _ Happly); [|discriminate].
    vm_compute. repeat constructor. }
  assert (call exampleProgram (VFun MixinString "MixinString") None (with_host w0 o1)
          = Throw (TypeError "Cannot read properties of undefined (reading 'defaultValue')"))
    as Hcall.
  { change (call exampleProgram (VFun MixinString "MixinString") None)
      with (body exampleProgram MixinString "MixinString" None).
    rewrite body_MixinString. unfold MixinString_init, bind, notApplicable.
    cbn [host with_host].
    rewrite (applyMixin_hasMixin exampleProgram _ _ _ _ Happly), Hhas0, HhasN.
    by rewrite andb_false_r. }
  simpl. unfold bind.
  rewrite (initOne_first exampleProgram C (Bare MixinString) w0 t); [|by rewrite Hhas0].
  simpl. rewrite Happly. simpl. rewrite name_MixinString, Hget.
  by rewrite Hcall.
Qed.

(** ** The further theorems at the example *)

Lemma entries_twoOwners : entries (host (fst twoOwners)) = twoOwnersRegistry.
Proof. evaluate. Qed.

Lemma numberOnce_installable :
  installable exampleProgram MixinString (host (fst numberOnce)).
Proof. apply installable_check. evaluate. Qed.

Lemma plainHost_installable c : installable halfProgram c (host plainHost).
Proof. intros n cur _ H. simpl in H. by rewrite lookup_empty in H. Qed.

(** X1 at the example: [applyMixin(instance, MixinNumber)] on a host with a
    non-configurable [getNumber]. *)
Lemma applyMixin_throws_TypeError_on_clash_witness :
  exists msg, applyMixin exampleProgram MixinNumber lockedHost = Throw (TypeError msg).
Proof.
  destruct (applyMixin_throws_TypeError_on_clash exampleProgram MixinNumber lockedHost)
    as (_ & Hclash & _).
  apply (Hclash "getNumber" (Descriptor (VNumber (Num 0)) false true false)).
  - vm_compute. repeat constructor.
  - evaluate.
  - reflexivity.
Defined.

(** X2 at the example: [applyMixin(instance, MixinNumber)] twice. *)
Lemma applyMixin_idempotent_witness :
  applyMixin exampleProgram MixinNumber (host (fst allocated)) = Ok (tt, numberInstalled) /\
  applyMixin exampleProgram MixinNumber numberInstalled = Ok (tt, numberInstalled).
Proof.
  split; [evaluate|].
  exact (applyMixin_idempotent exampleProgram MixinNumber (host (fst allocated))
           numberInstalled ltac:(evaluate)).
Defined.

(** X3 at the example: [MixinNumber], then [MixinString]. *)
Lemma applyMixin_later_unit_shadows_witness :
  applyMixin exampleProgram MixinNumber (host (fst allocated)) = Ok (tt, numberInstalled) /\
  applyMixin exampleProgram MixinString numberInstalled = Ok (tt, bothInstalled) /\
  get exampleProgram bothInstalled "constructor" = VClass Combinator /\
  get exampleProgram bothInstalled "getString" = VFun MixinString "getString" /\
  get exampleProgram bothInstalled "getNumber" = VFun MixinNumber "getNumber".
Proof.
  split; [evaluate|]. split; [evaluate|].
  destruct (applyMixin_later_unit_shadows exampleProgram MixinNumber MixinString
              (host (fst allocated)) numberInstalled bothInstalled
              ltac:(evaluate) ltac:(evaluate)) as (A & B & C).
  split; [exact A|]. split.
  - apply B; [vm_compute; repeat constructor | discriminate].
  - apply C; [vm_compute; repeat constructor | by apply not_elem_of_literal | discriminate].
Defined.

(** X4 at the variant with two owning classes: [Combinator] adds
    [MixinString] to what [BaseClass] has attached. *)
Lemma mixinInits_keeps_earlier_attachments_witness :
  mixinInits exampleProgram Combinator [MixinStringArg] baseComposed = Ok (tt, twoOwners) /\
  exists m1,
    mixinsApplied (host (fst twoOwners)) = Some (entries (host (fst baseComposed)) ++ m1) /\
    (forall e, In e m1 ->
       classApplyingMixin (snd e) = Combinator /\ In (fst e) (map mixinOf [MixinStringArg]) /\
       hasMixin (host (fst baseComposed)) (fst e) = false).
Proof.
  split; [evaluate|].
  exact (mixinInits_keeps_earlier_attachments exampleProgram exampleProgram_quiet
           Combinator [MixinStringArg] (fst baseComposed) (fst twoOwners)
           (snd baseComposed) (snd twoOwners) ltac:(evaluate)).
Defined.

(** X5 at the same call. *)
Lemma mixinInits_attaches_every_requested_unit_witness :
  mixinInits exampleProgram Combinator [MixinStringArg] baseComposed = Ok (tt, twoOwners) /\
  hasMixin (host (fst baseComposed)) MixinNumber = true /\
  hasMixin (host (fst twoOwners)) MixinString = true /\
  hasMixin (host (fst twoOwners)) MixinNumber = true.
Proof.
  split; [evaluate|].
  assert (hasMixin (host (fst baseComposed)) MixinNumber = true) as Hbefore by evaluate.
  split; [exact Hbefore|].
  destruct (mixinInits_attaches_every_requested_unit exampleProgram exampleProgram_quiet
              Combinator [MixinStringArg] (fst baseComposed) (fst twoOwners)
              (snd baseComposed) (snd twoOwners) ltac:(evaluate)) as (A & B).
  split; [exact (A MixinStringArg (or_introl eq_refl)) | exact (B MixinNumber Hbefore)].
Defined.

(** X6 at the example: [mixinInits(this, Combinator)] on a new [Combinator],
    then [mixinDestroys(BaseClass)]. *)
Lemma mixinInits_without_units_witness :
  exists w1 w2,
    mixinInits exampleProgram Combinator [] (fst allocated, snd allocated)
      = Ok (tt, (w1, snd allocated)) /\
    mixinsApplied (host w1) = Some [] /\
    get exampleProgram (host w1) "mixinDestroys" = VFun Mixin "mixinDestroys" /\
    get exampleProgram (host w1) "constructor"
      = get exampleProgram (host (fst allocated)) "constructor" /\
    mixinDestroys exampleProgram BaseClass (w1, snd allocated) = Ok (tt, (w2, snd allocated)) /\
    mixinsApplied (host w2) = None /\ mixinsDestroyed (host w2) = None /\
    own (host w2) = own (host w1).
Proof.
  exact (mixinInits_without_units exampleProgram Combinator BaseClass
           (fst allocated) (snd allocated) eq_refl eq_refl (allocated_installable Mixin)).
Defined.

(** X7 at a unit with an initializer and no finalizer. *)
Lemma mixinInits_unit_without_finalizer_witness :
  mixinInits halfProgram Host [Bare Half] (plainHost, [])
  = Throw (TypeError "Cannot read properties of undefined (reading 'bind')").
Proof.
  refine (mixinInits_unit_without_finalizer halfProgram Host (Bare Half) plainHost []
            eq_refl (plainHost_installable Mixin) (plainHost_installable Half)
            _ _ _ _ eq_refl _).
  - vm_compute. repeat constructor.
  - discriminate.
  - by apply not_elem_of_literal.
  - by apply not_elem_of_literal.
  - intros conf w0 Hsome Hget. exists VUndefined, w0.
    split; [reflexivity|]. split; assumption.
Defined.

(** X8 at the example: [BaseClass] is no unit; it has no method
    [BaseClass()]. *)
Lemma mixinInits_unit_without_initializer_witness :
  mixinInits exampleProgram Combinator [Bare BaseClass] (fst allocated, snd allocated)
  = Throw (TypeError "is not a function").
Proof.
  exact (mixinInits_unit_without_initializer exampleProgram Combinator (Bare BaseClass)
           (fst allocated) (snd allocated) eq_refl
           (allocated_installable Mixin) (allocated_installable BaseClass)
           ltac:(by apply not_elem_of_literal) ltac:(by apply not_elem_of_literal) eq_refl).
Defined.


(** X10 at the variant with two owning classes: [mixinDestroys(BaseClass)]
    leaves the members of [MixinString] on the host. *)
Lemma mixinDestroys_keeps_properties_witness :
  mixinDestroys exampleProgram BaseClass twoOwners = Ok (tt, baseTornDown) /\
  own (host (fst baseTornDown)) !! "getString" = own (host (fst twoOwners)) !! "getString".
Proof.
  split; [evaluate|].
  apply (mixinDestroys_keeps_properties exampleProgram BaseClass
           (getOwnPropertyNames exampleProgram MixinString)
           (fst twoOwners) (fst baseTornDown) (snd twoOwners) (snd baseTornDown)).
  - intros e He Ho. rewrite entries_twoOwners in He.
    destruct He as [<-|[<-|[]]]; [|discriminate Ho].
    apply MixinNumberDestroy_keeps_MixinString_members.
  - evaluate.
  - vm_compute. repeat constructor.
Defined.

(** X11 at the variant with two owning classes: after
    [mixinDestroys(Combinator)] the unit [MixinString] still counts as
    attached. *)
Lemma hasMixin_after_mixinDestroys_witness :
  mixinDestroys exampleProgram Combinator twoOwners = Ok (tt, tornDownOnce) /\
  hasMixin (host (fst tornDownOnce)) MixinString = true.
Proof.
  split; [evaluate|].
  rewrite (hasMixin_after_mixinDestroys exampleProgram Combinator twoOwnersRegistry 0%Z
             (fst twoOwners) (fst tornDownOnce) (snd twoOwners) (snd tornDownOnce)
             ltac:(evaluate) ltac:(evaluate)
             (fun e _ _ => exampleProgram_quietFinalizer e)
             ltac:(evaluate) MixinString).
  evaluate.
Defined.

(** X12 at the example: [MixinString] composed on a [Combinator] that has no
    [MixinNumber] leaves [myString] unset. *)
Lemma failed_constraint_sets_no_field_witness :
  mixinInits exampleProgram Combinator [MixinStringArg] allocated = Ok (tt, stringAlone) /\
  own (host (fst stringAlone)) !! "myString" = own (host (fst allocated)) !! "myString".
Proof.
  split; [evaluate|].
  exact (failed_constraint_sets_no_field exampleProgram Combinator MixinString MixinNumber
           Combinator MixinStringArg (fst allocated) (fst stringAlone)
           (snd allocated) (snd stringAlone)
           eq_refl
           ltac:(vm_compute; repeat constructor)
           ltac:(by apply not_elem_of_literal)
           ltac:(by apply not_elem_of_literal)
           MixinString_returns_early
           eq_refl eq_refl eq_refl eq_refl
           ltac:(evaluate)
           "myString"
           ltac:(by apply not_elem_of_literal)
           ltac:(by apply not_elem_of_literal)).
Defined.

(** X14 at the variant with two owning classes. *)
Lemma reachable_registry_invariants_witness :
  quietProgram exampleProgram /\ reachable exampleProgram twoOwners /\
  NoDup (map fst (entries (host (fst twoOwners)))) /\
  exists k, destroyedCount (host (fst twoOwners)) = Some k /\ (0 <= k)%Z.
Proof.
  split; [exact exampleProgram_quiet|]. split; [exact reachable_twoOwners|].
  exact (reachable_registry_invariants exampleProgram twoOwners
           exampleProgram_quiet reachable_twoOwners).
Defined.

(** X15 at the example: [mixinInits(this, Combinator, MixinNumber)] on a new
    [Combinator]. *)
Lemma initializer_runs_before_registration_witness :
  exists w1 v w2,
    call exampleProgram (get exampleProgram (host w1) (name exampleProgram MixinNumber)) None w1
      = Ok (v, w2) /\
    hasMixin (host w1) MixinNumber = false /\
    (forall n, n ∈ getOwnPropertyNames exampleProgram MixinNumber -> n <> "constructor" ->
       own (host w1) !! n = getOwnPropertyDescriptor exampleProgram MixinNumber n) /\
    console w1 = console (fst allocated) /\
    own (host (fst numberOnce)) = own (host w2) /\ console (fst numberOnce) = console w2.
Proof.
  exact (initializer_runs_before_registration exampleProgram Combinator (Bare MixinNumber)
           (fst allocated) (fst numberOnce) (snd allocated) (snd numberOnce)
           eq_refl ltac:(evaluate)).
Defined.

(** X16 at the example: [mixinInits(this, Combinator, MixinString)] after
    [MixinNumber] has been attached. *)
Lemma MixinString_without_conf_throws_witness :
  mixinInits exampleProgram Combinator [Bare MixinString] (fst numberOnce, snd numberOnce)
  = Throw (TypeError "Cannot read properties of undefined (reading 'defaultValue')").
Proof.
  exact (MixinString_without_conf_throws Combinator (fst numberOnce) (snd numberOnce)
           ltac:(evaluate) ltac:(evaluate) numberOnce_installable).
Defined.

End ExampleEdgeRuns.
